(** * CoastalGuard process supervisor

    A shallow embedding of the cluster supervisor of the CoastalGuard
    backend: [config/loadBalancer.js] (class [LoadBalancer]), the part of
    [config/environment.js] that computes [CLUSTER_WORKERS], and the
    master/worker dispatch of the production startup script.

    The master is single-threaded JavaScript: every method and every event
    handler runs to completion on one control path.  A handler is modelled
    as a computation in a small monad [M] that threads the supervisor state,
    records the effects that leave the process (fork, IPC send, signal,
    timer, exit) and can complete normally, throw, or halt the process.
    Logging ([logger.info] and friends) has no effect on the state and is
    left out. *)

From Stdlib Require Import String List Arith ZArith Bool Lia.
Import ListNotations.

Set Implicit Arguments.

(** ** JavaScript [Map] with numeric keys

    A [Map] iterates in insertion order; [set] on a key that is present
    keeps its position, [delete] removes the entry.  [scaleWorkers] depends
    on that order, so the registry is an association list. *)

Module JsMap.
Section Defs.
Variable V : Type.

Definition t := list (nat * V).

Definition empty : t := [].

Fixpoint set (k : nat) (v : V) (m : t) : t :=
  match m with
  | [] => [(k, v)]
  | (k', v') :: m' =>
      if k' =? k then (k, v) :: m' else (k', v') :: set k v m'
  end.

Definition delete (k : nat) (m : t) : t :=
  filter (fun e => negb (fst e =? k)) m.

Definition size (m : t) : nat := length m.

Definition keys (m : t) : list nat := map fst m.

Definition values (m : t) : list V := map snd m.
End Defs.

Arguments empty {V}.
End JsMap.

(** ** Data *)

(** [worker.process]: only [connected] is read by the supervisor's logic
    ([pid] is read for log lines only). *)
Record ChildProcess := { connected : bool }.

(** A cluster [Worker] object. *)
Record Worker := { id : nat; process : ChildProcess }.

(** Effects of the master that are visible outside it. *)
Inductive Action :=
| Fork (w : nat)                  (* cluster.fork() created worker [w] *)
| Send (w : nat) (msg : string)   (* worker.send(msg) *)
| Kill (w : nat) (sig : string)   (* worker.kill(sig) *)
| SetTimeout (ms : nat)           (* setTimeout(replace, ms) *)
| ProcessExit (code : Z).         (* process.exit(code) *)

(** The [LoadBalancer] object ([numCPUs], [workers], [isMaster]) together
    with the part of the Node runtime its handlers act on: the cluster
    module's id counter, the replacement timers that have not fired yet,
    the [Promise.allSettled] waits of the [shutdownGracefully] calls that
    are suspended at their [await] (one list of worker ids per call: the
    workers whose [disconnect] has not fired), and the exit code once
    [process.exit] has run. *)
Record Master := {
  numCPUs : nat;
  workers : JsMap.t Worker;
  isMaster : bool;
  ids : nat;
  timers : nat;
  waits : list (list nat);
  exitCode : option Z
}.

Definition set_workers (r : JsMap.t Worker) (s : Master) : Master :=
  {| numCPUs := numCPUs s; workers := r; isMaster := isMaster s;
     ids := ids s; timers := timers s; waits := waits s;
     exitCode := exitCode s |}.

Definition set_ids (n : nat) (s : Master) : Master :=
  {| numCPUs := numCPUs s; workers := workers s; isMaster := isMaster s;
     ids := n; timers := timers s; waits := waits s;
     exitCode := exitCode s |}.

Definition set_timers (n : nat) (s : Master) : Master :=
  {| numCPUs := numCPUs s; workers := workers s; isMaster := isMaster s;
     ids := ids s; timers := n; waits := waits s;
     exitCode := exitCode s |}.

Definition set_waits (w : list (list nat)) (s : Master) : Master :=
  {| numCPUs := numCPUs s; workers := workers s; isMaster := isMaster s;
     ids := ids s; timers := timers s; waits := w;
     exitCode := exitCode s |}.

Definition set_exitCode (c : option Z) (s : Master) : Master :=
  {| numCPUs := numCPUs s; workers := workers s; isMaster := isMaster s;
     ids := ids s; timers := timers s; waits := waits s;
     exitCode := c |}.

(** ** The handler monad *)

Inductive Completion (A : Type) : Type :=
| Normal (a : A)        (* the handler returned *)
| Throw (e : string)    (* an exception escaped *)
| Halt.                 (* process.exit ran: nothing after it executes *)

Arguments Halt {A}.
Arguments Throw {A} e.

Definition M (A : Type) : Type :=
  Master -> Completion A * Master * list Action.

Definition ret {A} (a : A) : M A := fun s => (Normal a, s, []).

Definition bind {A B} (m : M A) (f : A -> M B) : M B :=
  fun s =>
    match m s with
    | (Normal a, s1, l1) =>
        let '(c, s2, l2) := f a s1 in (c, s2, l1 ++ l2)
    | (Throw e, s1, l1) => (Throw e, s1, l1)
    | (Halt, s1, l1) => (Halt, s1, l1)
    end.

Declare Scope js_scope.
Delimit Scope js_scope with js.
Notation "x <- m ;; k" := (bind m (fun x => k))
  (at level 61, m at next level, right associativity) : js_scope.
Notation "m ;; k" := (bind m (fun _ => k))
  (at level 61, right associativity) : js_scope.
Local Open Scope js_scope.

Definition gets {A} (f : Master -> A) : M A := fun s => (Normal (f s), s, []).
Definition modify (f : Master -> Master) : M unit :=
  fun s => (Normal tt, f s, []).
Definition emit (a : Action) : M unit := fun s => (Normal tt, s, [a]).
Definition throw {A} (e : string) : M A := fun s => (Throw e, s, []).

(** [for (const x of l) f(x)] *)
Fixpoint forEach {A} (l : list A) (f : A -> M unit) : M unit :=
  match l with
  | [] => ret tt
  | x :: l' => f x ;; forEach l' f
  end.

(** A counting [for] loop whose body ignores the index. *)
Fixpoint times (n : nat) (body : M unit) : M unit :=
  match n with
  | 0 => ret tt
  | S n' => body ;; times n' body
  end.

(** A loop that pushes onto a local array. *)
Fixpoint foldM {A B} (f : B -> A -> M B) (l : list A) (acc : B) : M B :=
  match l with
  | [] => ret acc
  | x :: l' => acc' <- f acc x ;; foldM f l' acc'
  end.

(** ** Runtime primitives *)

(** [cluster.fork()]: the cluster module numbers workers with [++ids]; the
    child is spawned with its IPC channel open. *)
Definition cluster_fork : M Worker :=
  n <- gets ids ;;
  let worker := {| id := S n; process := {| connected := true |} |} in
  modify (set_ids (S n)) ;;
  emit (Fork (S n)) ;;
  ret worker.

(** [worker.send(msg)]: on a closed channel Node raises
    [ERR_IPC_CHANNEL_CLOSED] as an [error] event nobody listens to. *)
Definition send (worker : Worker) (msg : string) : M unit :=
  if connected (process worker)
  then emit (Send (id worker) msg)
  else throw "ERR_IPC_CHANNEL_CLOSED".

(** [worker.kill(sig)] *)
Definition kill (worker : Worker) (sig : string) : M unit :=
  emit (Kill (id worker) sig).

(** [process.exit(code)] *)
Definition process_exit (code : Z) : M unit :=
  fun s => (Halt, set_exitCode (Some code) s, [ProcessExit code]).

(** ** [LoadBalancer] *)

(** [constructor()]: [os.cpus().length] and [cluster.isMaster] are read
    from the host. *)
Definition LoadBalancer (cpus : nat) (clusterIsMaster : bool) : Master :=
  {| numCPUs := cpus; workers := JsMap.empty; isMaster := clusterIsMaster;
     ids := 0; timers := 0; waits := []; exitCode := None |}.

Definition workers_set (k : nat) (w : Worker) : M unit :=
  modify (fun s => set_workers (JsMap.set k w (workers s)) s).

Definition workers_delete (k : nat) : M unit :=
  modify (fun s => set_workers (JsMap.delete k (workers s)) s).

Definition forkWorker : M Worker :=
  worker <- cluster_fork ;;
  workers_set (id worker) worker ;;
  ret worker.

(** The forking loop of [startMaster]; its handler registrations are the
    dispatch function [handlers] below. *)
Definition startMaster : M unit :=
  master <- gets isMaster ;;
  if negb master then ret tt
  else
    n <- gets numCPUs ;;
    times n (forkWorker ;; ret tt).

Definition monitorWorkers : M unit :=
  master <- gets isMaster ;;
  if negb master then ret tt
  else
    activeWorkers <- gets (fun s => JsMap.size (workers s)) ;;
    expectedWorkers <- gets numCPUs ;;
    (if activeWorkers <? expectedWorkers
     then times (expectedWorkers - activeWorkers) (forkWorker ;; ret tt)
     else ret tt) ;;
    registry <- gets (fun s => JsMap.values (workers s)) ;;
    forEach registry (fun worker =>
      if connected (process worker)
      then send worker "health-check"
      else ret tt).

(** The continuation of [shutdownGracefully] after its [await]. *)
Definition shutdown_resume : M unit := process_exit 0.

(** [shutdownGracefully] up to its suspension point.  The promise
    executors run synchronously, so every [send] happens in the call; the
    promise pushed for a worker is represented by the worker's id (its
    [once('disconnect', resolve)] listener is on that worker object). *)
Definition shutdownGracefully : M unit :=
  registry <- gets (fun s => JsMap.values (workers s)) ;;
  promises <- foldM (fun promises worker =>
      if connected (process worker)
      then send worker "shutdown" ;; ret (promises ++ [id worker])
      else ret promises) registry [] ;;
  if 0 <? length promises
  then modify (fun s => set_waits (waits s ++ [promises]) s)
  else shutdown_resume.

Module Stats.
Record workers_t := { total : nat; expected : nat; active : nat }.
Record system_t := { cpus : nat }.
(** The [master] block and the rest of [system] are readings of the
    running process ([process.uptime()], [process.platform], ...). *)
Record t := { workers : workers_t; system : system_t }.
End Stats.

Definition getStats (s : Master) : option Stats.t :=
  if negb (isMaster s) then None
  else Some
    {| Stats.workers :=
         {| Stats.total := JsMap.size (workers s);
            Stats.expected := numCPUs s;
            Stats.active :=
              length (filter (fun w => connected (process w))
                             (JsMap.values (workers s))) |};
       Stats.system := {| Stats.cpus := numCPUs s |} |}.

Definition restartWorkers : M unit :=
  master <- gets isMaster ;;
  if negb master then ret tt
  else
    registry <- gets (fun s => JsMap.values (workers s)) ;;
    forEach registry (fun worker =>
      if connected (process worker)
      then kill worker "SIGTERM"
      else ret tt).

Definition scaleWorkers (count : nat) : M unit :=
  master <- gets isMaster ;;
  if negb master then ret tt
  else
    currentCount <- gets (fun s => JsMap.size (workers s)) ;;
    if currentCount <? count then
      let toAdd := count - currentCount in
      times toAdd (forkWorker ;; ret tt)
    else if count <? currentCount then
      let toRemove := currentCount - count in
      workersArray <- gets (fun s => JsMap.values (workers s)) ;;
      forEach (seq 0 toRemove) (fun i =>
        match nth_error workersArray i with
        | Some worker =>
            if connected (process worker)
            then kill worker "SIGTERM"
            else ret tt
        | None => ret tt
        end)
    else ret tt.

(** ** Event handlers installed by [startMaster] *)

(** [cluster.on('online')] *)
Definition on_online (worker : Worker) : M unit :=
  workers_set (id worker) worker.

(** [cluster.on('disconnect')] *)
Definition on_disconnect (worker : Worker) : M unit :=
  workers_delete (id worker).

(** [cluster.on('exit')]: the replacement is scheduled unconditionally. *)
Definition on_exit (worker : Worker) : M unit :=
  workers_delete (id worker) ;;
  modify (fun s => set_timers (S (timers s)) s) ;;
  emit (SetTimeout 1000).

(** A replacement timer fires (if one is pending): its callback forks. *)
Definition on_timeout : M unit :=
  n <- gets timers ;;
  match n with
  | 0 => ret tt
  | S n' => modify (set_timers n') ;; forkWorker ;; ret tt
  end.

(** [worker.once('disconnect', resolve)]: the promise of that worker
    settles in every suspended [shutdownGracefully] call. *)
Definition resolve (w : nat) : M unit :=
  modify (fun s =>
    set_waits (map (filter (fun i => negb (i =? w))) (waits s)) s).

Definition settled (pending : list nat) : bool :=
  match pending with [] => true | _ :: _ => false end.

(** The microtask after the listeners: a call whose promises have all
    settled resumes after its [await]. *)
Definition resume : M unit :=
  ws <- gets waits ;;
  if existsb settled ws
  then modify (set_waits (filter (fun p => negb (settled p)) ws)) ;;
       shutdown_resume
  else ret tt.

(** What the master's event loop can deliver. *)
Inductive Event :=
| Online (worker : Worker)
| Disconnect (worker : Worker)
| Exit (worker : Worker)
| TimerFired                       (* a replacement timer is due *)
| Interval                      (* the 30 s health monitoring timer *)
| Signal                        (* SIGTERM or SIGINT *)
| ScaleWorkers (count : nat)    (* a caller invokes scaleWorkers(count) *)
| RestartWorkers.               (* a caller invokes restartWorkers() *)

(** The listeners of each event in the order they run.  For a signal
    these are the handler installed by [startMaster] and the one the
    startup script installs after it; both call [shutdownGracefully]. *)
Definition handlers (e : Event) : list (M unit) :=
  match e with
  | Online worker => [on_online worker]
  | Disconnect worker => [resolve (id worker); on_disconnect worker; resume]
  | Exit worker => [on_exit worker]
  | TimerFired => [on_timeout]
  | Interval => [monitorWorkers]
  | Signal => [shutdownGracefully; shutdownGracefully]
  | ScaleWorkers count => [scaleWorkers count]
  | RestartWorkers => [restartWorkers]
  end.

(** One listener runs only while the process is alive; an exception that
    escapes it is uncaught and ends the master with code 1. *)
Definition run_handler (h : M unit) (s : Master) : Master * list Action :=
  match exitCode s with
  | Some _ => (s, [])
  | None =>
      match h s with
      | (Normal _, s', l) => (s', l)
      | (Halt, s', l) => (s', l)
      | (Throw _, s', l) => (set_exitCode (Some 1%Z) s', l ++ [ProcessExit 1])
      end
  end.

Fixpoint run_handlers (hs : list (M unit)) (s : Master)
  : Master * list Action :=
  match hs with
  | [] => (s, [])
  | h :: hs' =>
      let '(s1, l1) := run_handler h s in
      let '(s2, l2) := run_handlers hs' s1 in
      (s2, l1 ++ l2)
  end.

Definition step (e : Event) (s : Master) : Master * list Action :=
  run_handlers (handlers e) s.

Fixpoint run (evs : list Event) (s : Master) : Master * list Action :=
  match evs with
  | [] => (s, [])
  | e :: evs' =>
      let '(s1, l1) := step e s in
      let '(s2, l2) := run evs' s1 in
      (s2, l1 ++ l2)
  end.

(** ** [config/environment.js]: the cluster keys of [validateEnv] *)

Module ProcessEnv.
(** [process.env], a key being [None] when unset. *)
Record t := {
  NODE_ENV : option string;
  ENABLE_CLUSTER : option bool;
  CLUSTER_WORKERS : option nat
}.
End ProcessEnv.

Module Env.
Record t := {
  NODE_ENV : string;
  ENABLE_CLUSTER : bool;
  CLUSTER_WORKERS : nat
}.
End Env.

(** [Joi.string().valid('development', 'production', 'test')] *)
Definition valid_NODE_ENV (v : string) : bool :=
  String.eqb v "development" || String.eqb v "production"
  || String.eqb v "test".

(** [validateEnv()]; [None] is the [process.exit(1)] of a schema error.
    The keys the supervisor never reads are taken to validate. *)
Definition validateEnv (env : ProcessEnv.t) (cpus : nat) : option Env.t :=
  let node_env :=
    match ProcessEnv.NODE_ENV env with
    | Some v => v
    | None => "development"%string
    end in
  let enable_cluster :=
    match ProcessEnv.ENABLE_CLUSTER env with
    | Some b => b
    | None => true
    end in
  if negb (valid_NODE_ENV node_env) then None
  else
    match ProcessEnv.CLUSTER_WORKERS env with
    | Some n =>
        (* Joi.number().min(1).max(16) *)
        if (1 <=? n) && (n <=? 16) then
          Some {| Env.NODE_ENV := node_env;
                  Env.ENABLE_CLUSTER :=
                    if String.eqb node_env "production" then true
                    else if String.eqb node_env "development" then false
                    else enable_cluster;
                  Env.CLUSTER_WORKERS := n |}
        else None
    | None =>
        (* default('auto'), replaced by os.cpus().length *)
        Some {| Env.NODE_ENV := node_env;
                Env.ENABLE_CLUSTER :=
                  if String.eqb node_env "production" then true
                  else if String.eqb node_env "development" then false
                  else enable_cluster;
                Env.CLUSTER_WORKERS := cpus |}
    end.

(** ** The production startup script *)

Inductive Startup :=
| Invalid                                      (* validateEnv exited *)
| AsMaster (env : Env.t) (s : Master) (log : list Action)
| AsWorker (env : Env.t).

(** The role dispatch: the master branch constructs the [LoadBalancer]
    and calls [startMaster]. *)
Definition startup (penv : ProcessEnv.t) (cpus : nat)
  (clusterIsMaster : bool) : Startup :=
  match validateEnv penv cpus with
  | None => Invalid
  | Some env =>
      if clusterIsMaster && Env.ENABLE_CLUSTER env
      then
        let loadBalancer := LoadBalancer cpus clusterIsMaster in
        let '(s, log) := run_handler startMaster loadBalancer in
        AsMaster env s log
      else AsWorker env
  end.

(** The worker branch of the startup script. *)
Module WorkerProcess.

(** [connected] is [process.connected]; [reports] counts the health
    objects passed to [process.send]. *)
Record t := { connected : bool; reports : nat; exitCode : option Z }.

Inductive Event :=
| Message (msg : string)
| UncaughtException
| UnhandledRejection.

Definition process_exit (code : Z) (p : t) : t :=
  {| connected := connected p; reports := reports p;
     exitCode := Some code |}.

(** [process.send(...)]: [None] is the error raised on a closed
    channel. *)
Definition process_send (p : t) : option t :=
  if connected p
  then Some {| connected := true; reports := S (reports p);
               exitCode := exitCode p |}
  else None.

(** [process.on('message', ...)] *)
Definition on_message (msg : string) (p : t) : option t :=
  if String.eqb msg "shutdown" then Some (process_exit 0 p)
  else if String.eqb msg "health-check" then process_send p
  else Some p.

(** The two fault handlers [startWorker] installs. *)
Definition on_uncaughtException (p : t) : t := process_exit 1 p.
Definition on_unhandledRejection (p : t) : t := process_exit 1 p.

(** [startWorker()]: when [require('./server')] throws, the [catch]
    exits with 1; otherwise the fault handlers are installed. *)
Definition startWorker (serverLoads : bool) (p : t) : t :=
  if serverLoads then p else process_exit 1 p.

(** A worker as the startup script leaves it. *)
Definition start (serverLoads : bool) : t :=
  startWorker serverLoads
    {| connected := true; reports := 0; exitCode := None |}.

(** Delivery of one event to a started worker.  A message arrives only
    over an open channel; an exception escaping the message listener
    is an uncaught exception. *)
Definition step (e : Event) (p : t) : t :=
  match exitCode p with
  | Some _ => p
  | None =>
      match e with
      | Message msg =>
          if connected p then
            match on_message msg p with
            | Some p' => p'
            | None => on_uncaughtException p
            end
          else p
      | UncaughtException => on_uncaughtException p
      | UnhandledRejection => on_unhandledRejection p
      end
  end.

(** Successive deliveries. *)
Fixpoint run (evs : list Event) (p : t) : t :=
  match evs with
  | [] => p
  | e :: evs' => run evs' (step e p)
  end.

End WorkerProcess.

(** ** [config/environment.js]: the environment predicates *)

(** [isProduction()], [isDevelopment()] and [isTest()] compare the raw
    [process.env.NODE_ENV], which [validateEnv] does not write back. *)
Definition isProduction (penv : ProcessEnv.t) : bool :=
  match ProcessEnv.NODE_ENV penv with
  | Some v => String.eqb v "production"
  | None => false
  end.

Definition isDevelopment (penv : ProcessEnv.t) : bool :=
  match ProcessEnv.NODE_ENV penv with
  | Some v => String.eqb v "development"
  | None => false
  end.

Definition isTest (penv : ProcessEnv.t) : bool :=
  match ProcessEnv.NODE_ENV penv with
  | Some v => String.eqb v "test"
  | None => false
  end.

(** ** [server.js]: its own cluster switch *)

(** [cluster.isMaster && process.env.NODE_ENV === 'production']: when it
    holds, the module forks workers itself instead of serving. *)
Definition server_forks (clusterIsMaster : bool) (penv : ProcessEnv.t)
  : bool :=
  clusterIsMaster && isProduction penv.

(** ** The metrics collector of the startup script *)

Module Metrics.

(** One entry of [metrics.memory]. *)
Record Reading := {
  timestamp : nat;
  rss : nat;
  heapUsed : nat;
  heapTotal : nat
}.

Record t := {
  startTime : nat;
  requests : nat;
  errors : nat;
  memory : list Reading
}.

(** The object the script creates, [now] being [Date.now()]. *)
Definition init (now : nat) : t :=
  {| startTime := now; requests := 0; errors := 0; memory := [] |}.

(** The 5-minute callback: push the reading, then [shift()] once if more
    than 100 are held. *)
Definition collect (r : Reading) (m : t) : t :=
  let pushed := memory m ++ [r] in
  {| startTime := startTime m; requests := requests m; errors := errors m;
     memory := if 100 <? length pushed then tl pushed else pushed |}.

Definition collect_all (rs : list Reading) (m : t) : t :=
  fold_left (fun m r => collect r m) rs m.

End Metrics.

(** ** Vocabulary of the statements *)

Definition isConnected (w : Worker) : bool := connected (process w).


(** The worker object [cluster.fork()] returns for id [i]. *)
Definition newWorker (i : nat) : Worker :=
  {| id := i; process := {| connected := true |} |}.

(** The state after one [forkWorker]. *)
Definition fork_state (s : Master) : Master :=
  set_workers (JsMap.set (S (ids s)) (newWorker (S (ids s))) (workers s))
              (set_ids (S (ids s)) s).

Fixpoint fork_n (n : nat) (s : Master) : Master :=
  match n with
  | 0 => s
  | S n' => fork_n n' (fork_state s)
  end.

(** Every registered id was handed out by the cluster module. *)
Definition fresh (s : Master) : Prop :=
  Forall (fun k => k <= ids s) (JsMap.keys (workers s)).

(** The registry entries of [n] consecutive forks after id [from]. *)
Definition spawned (from n : nat) : JsMap.t Worker :=
  map (fun i => (i, newWorker i)) (seq (S from) n).

(** A registry extended by [n] forks, the old entries in place. *)
Definition forked (n : nat) (s : Master) : Master :=
  set_ids (ids s + n) (set_workers (workers s ++ spawned (ids s) n) s).

Definition health_checks (r : JsMap.t Worker) : list Action :=
  map (fun w => Send (id w) "health-check"%string)
      (filter isConnected (JsMap.values r)).

Definition shutdown_messages (r : JsMap.t Worker) : list Action :=
  map (fun w => Send (id w) "shutdown"%string)
      (filter isConnected (JsMap.values r)).

Definition terminations (l : list Worker) : list Action :=
  map (fun w => Kill (id w) "SIGTERM"%string) (filter isConnected l).

(** The promises of one [shutdownGracefully] call. *)
Definition awaited (r : JsMap.t Worker) : list nat :=
  map id (filter isConnected (JsMap.values r)).

(** The master once [startMaster] has run on a host with [cpus] cores. *)
Definition boot (cpus : nat) : Master :=
  fst (run_handler startMaster (LoadBalancer cpus true)).

(** The worker object [i] as the runtime hands it to a listener after
    the worker's channel has closed. *)
Definition gone (i : nat) : Worker :=
  {| id := i; process := {| connected := false |} |}.

(** The ids of the workers whose [disconnect] event is in [evs]. *)
Definition disconnected (evs : list Event) : list nat :=
  flat_map (fun e =>
    match e with Disconnect worker => [id worker] | _ => [] end) evs.

Definition mem (i : nat) (l : list nat) : bool := existsb (Nat.eqb i) l.

(** No signal handler runs in [evs]. *)
Definition no_signal (evs : list Event) : bool :=
  forallb (fun e => match e with Signal => false | _ => true end) evs.

(** Every registry entry is filed under the id of its worker, once. *)
Definition keyed (r : JsMap.t Worker) : Prop :=
  Forall (fun e => fst e = id (snd e)) r /\ NoDup (JsMap.keys r).

(** The [exit] events of the workers [l]. *)
Definition exits (l : list Worker) : list Event :=
  map (fun w => Exit (gone (id w))) l.

(** The runtime only announces workers the cluster module has forked. *)
Definition event_ok (s : Master) (e : Event) : Prop :=
  match e with
  | Online worker => id worker <= ids s
  | _ => True
  end.

Fixpoint events_ok (evs : list Event) (s : Master) : Prop :=
  match evs with
  | [] => True
  | e :: evs' => event_ok s e /\ events_ok evs' (fst (step e s))
  end.

(** A pool of target 4 that is two workers short and holds one worker
    whose channel has closed but whose [disconnect] has not fired yet. *)
Definition short_pool : Master :=
  {| numCPUs := 4;
     workers := [(1, newWorker 1); (2, gone 2)];
     isMaster := true; ids := 2; timers := 0; waits := [];
     exitCode := None |}.

(** A master of two workers suspended in [shutdownGracefully]. *)
Definition draining : Master :=
  fst (run_handler shutdownGracefully (boot 2)).

(** A registry that holds only a worker whose channel has closed. *)
Definition short_pool_gone : Master :=
  {| numCPUs := 4; workers := [(2, gone 2)]; isMaster := true;
     ids := 2; timers := 0; waits := []; exitCode := None |}.

(** [NODE_ENV=development] with [ENABLE_CLUSTER=true]. *)
Definition development_clustered : ProcessEnv.t :=
  {| ProcessEnv.NODE_ENV := Some "development"%string;
     ProcessEnv.ENABLE_CLUSTER := Some true;
     ProcessEnv.CLUSTER_WORKERS := None |}.

(** An environment that sets none of the three keys. *)
Definition unset_env : ProcessEnv.t :=
  {| ProcessEnv.NODE_ENV := None;
     ProcessEnv.ENABLE_CLUSTER := None;
     ProcessEnv.CLUSTER_WORKERS := None |}.

(** * Properties *)

(** ** The registry as an insertion-ordered map *)

Lemma set_absent (V : Type) (k : nat) (v : V) (m : JsMap.t V) :
  ~ In k (JsMap.keys m) -> JsMap.set k v m = m ++ [(k, v)].
Proof.
  induction m as [|[k' v'] m IH]; simpl; intros Hk; [reflexivity|].
  destruct (Nat.eqb_spec k' k) as [->|Hne].
  - exfalso; apply Hk; now left.
  - rewrite IH; [reflexivity|]. intros Hin; apply Hk; now right.
Qed.

(** ** Forking *)

Lemma forkWorker_eq (s : Master) :
  forkWorker s = (Normal (newWorker (S (ids s))), fork_state s,
                  [Fork (S (ids s))]).
Proof. reflexivity. Qed.

Lemma times_forkWorker (n : nat) : forall s,
  times n (forkWorker ;; ret tt) s
  = (Normal tt, fork_n n s, map Fork (seq (S (ids s)) n)).
Proof.
  induction n as [|n IH]; intros s; [reflexivity|].
  cbn [times]. unfold bind at 1.
  change ((forkWorker ;; ret tt) s)
    with (Normal tt, fork_state s, [Fork (S (ids s))]).
  cbn iota. rewrite IH. reflexivity.
Qed.

Lemma fresh_fork_state (s : Master) : fresh s -> fresh (fork_state s).
Proof.
  unfold fresh; cbn. intros H.
  rewrite set_absent.
  - unfold JsMap.keys. rewrite map_app. apply Forall_app; split.
    + eapply Forall_impl; [|exact H]. cbn; lia.
    + repeat constructor.
  - intros Hin. rewrite Forall_forall in H. apply H in Hin. lia.
Qed.

Lemma fork_state_fresh (s : Master) :
  fresh s -> fork_state s = forked 1 s.
Proof.
  intros H. unfold fork_state, forked, spawned. cbn.
  rewrite set_absent.
  - now rewrite Nat.add_1_r.
  - intros Hin. unfold fresh in H. rewrite Forall_forall in H.
    apply H in Hin. lia.
Qed.

Lemma fork_n_fresh (n : nat) : forall s,
  fresh s -> fork_n n s = forked n s.
Proof.
  induction n as [|n IH]; intros s H.
  - destruct s; unfold forked, spawned; cbn.
    now rewrite app_nil_r, Nat.add_0_r.
  - cbn [fork_n]. rewrite IH by now apply fresh_fork_state.
    rewrite fork_state_fresh by assumption.
    unfold forked, spawned; cbn.
    rewrite <- app_assoc, Nat.add_1_r. cbn.
    now rewrite Nat.add_succ_r.
Qed.

Lemma fork_n_frame (n : nat) : forall s,
  numCPUs (fork_n n s) = numCPUs s /\
  isMaster (fork_n n s) = isMaster s /\
  timers (fork_n n s) = timers s /\
  waits (fork_n n s) = waits s /\
  exitCode (fork_n n s) = exitCode s /\
  ids (fork_n n s) = ids s + n.
Proof.
  induction n as [|n IH]; intros s; cbn [fork_n].
  - repeat split; lia.
  - destruct (IH (fork_state s)) as (H1 & H2 & H3 & H4 & H5 & H6).
    rewrite H1, H2, H3, H4, H5, H6. cbn. repeat split; lia.
Qed.

Lemma size_forked (n : nat) (s : Master) :
  JsMap.size (workers (forked n s)) = JsMap.size (workers s) + n.
Proof.
  unfold forked, spawned, JsMap.size; cbn.
  now rewrite length_app, length_map, length_seq.
Qed.

(** ** Loops over the registry *)

Lemma bind_Normal (A B : Type) (m : M A) (f : A -> M B)
  (s s1 : Master) (a : A) (l1 : list Action) :
  m s = (Normal a, s1, l1) ->
  bind m f s = (let '(c, s2, l2) := f a s1 in (c, s2, l1 ++ l2)).
Proof. intros H. unfold bind. now rewrite H. Qed.

Lemma guarded_send (w : Worker) (msg : string) (s : Master) :
  (if connected (process w) then send w msg else ret tt) s
  = (Normal tt, s,
     if connected (process w) then [Send (id w) msg] else []).
Proof. unfold send. now destruct (connected (process w)). Qed.

Lemma guarded_kill (w : Worker) (sig : string) (s : Master) :
  (if connected (process w) then kill w sig else ret tt) s
  = (Normal tt, s,
     if connected (process w) then [Kill (id w) sig] else []).
Proof. now destruct (connected (process w)). Qed.

Lemma forEach_send (msg : string) (l : list Worker) (s : Master) :
  forEach l (fun worker =>
    if connected (process worker) then send worker msg else ret tt) s
  = (Normal tt, s,
     map (fun w => Send (id w) msg) (filter isConnected l)).
Proof.
  induction l as [|w l IH]; [reflexivity|].
  cbn [forEach filter].
  erewrite bind_Normal by apply guarded_send. rewrite IH.
  unfold isConnected.
  destruct (connected (process w)); reflexivity.
Qed.

Lemma forEach_kill (sig : string) (l : list Worker) (s : Master) :
  forEach l (fun worker =>
    if connected (process worker) then kill worker sig else ret tt) s
  = (Normal tt, s,
     map (fun w => Kill (id w) sig) (filter isConnected l)).
Proof.
  induction l as [|w l IH]; [reflexivity|].
  cbn [forEach filter].
  erewrite bind_Normal by apply guarded_kill. rewrite IH.
  unfold isConnected.
  destruct (connected (process w)); reflexivity.
Qed.

(** The indexed loop of the scale-down branch visits the first
    [toRemove] entries of the array. *)
Lemma forEach_index (sig : string) (arr : list Worker) (s : Master) :
  forall (n off : nat),
  forEach (seq off n) (fun i =>
    match nth_error arr i with
    | Some worker =>
        if connected (process worker) then kill worker sig else ret tt
    | None => ret tt
    end) s
  = (Normal tt, s,
     map (fun w => Kill (id w) sig)
         (filter isConnected (firstn n (skipn off arr)))).
Proof.
  induction n as [|n IH]; intros off; [reflexivity|].
  cbn [seq forEach].
  destruct (nth_error arr off) as [w|] eqn:E.
  - erewrite bind_Normal by apply guarded_kill. rewrite IH.
    apply nth_error_split in E as (l1 & l2 & -> & <-).
    replace (skipn (S (length l1)) (l1 ++ w :: l2)) with l2.
    2:{ change (w :: l2) with ([w] ++ l2). rewrite app_assoc.
        rewrite skipn_app.
        replace (S (length l1)) with (length (l1 ++ [w]))
          by (rewrite length_app; cbn; lia).
        now rewrite skipn_all, Nat.sub_diag. }
    rewrite skipn_app, skipn_all, Nat.sub_diag. cbn [app skipn firstn filter].
    unfold isConnected.
    destruct (connected (process w)); reflexivity.
  - unfold bind at 1. cbn. rewrite IH. apply nth_error_None in E.
    rewrite !skipn_all2 by lia. now rewrite !firstn_nil.
Qed.

Lemma foldM_promises (l : list Worker) (s : Master) : forall acc,
  foldM (fun promises worker =>
      if connected (process worker)
      then send worker "shutdown" ;; ret (promises ++ [id worker])
      else ret promises) l acc s
  = (Normal (acc ++ map id (filter isConnected l)), s,
     map (fun w => Send (id w) "shutdown"%string) (filter isConnected l)).
Proof.
  induction l as [|w l IH]; intros acc.
  - cbn. now rewrite app_nil_r.
  - cbn [foldM filter].
    assert (Hw : isConnected w = connected (process w)) by reflexivity.
    destruct (connected (process w)) eqn:E; rewrite Hw.
    + erewrite bind_Normal
        by (unfold bind, send; rewrite E; reflexivity).
      rewrite IH, <- app_assoc. reflexivity.
    + erewrite bind_Normal by reflexivity.
      rewrite IH. reflexivity.
Qed.

(** ** What each method computes *)

Ltac step_bind :=
  erewrite bind_Normal by
    first [ reflexivity | apply times_forkWorker | apply forEach_send
          | apply forEach_kill | apply forEach_index
          | apply foldM_promises ];
  cbv beta iota.

Lemma monitorWorkers_eq (s : Master) :
  isMaster s = true ->
  let short := numCPUs s - JsMap.size (workers s) in
  monitorWorkers s
  = (Normal tt, fork_n short s,
     map Fork (seq (S (ids s)) short)
     ++ health_checks (workers (fork_n short s))).
Proof.
  intros Hm short. unfold monitorWorkers.
  step_bind. unfold gets at 1. rewrite Hm. cbn [negb].
  step_bind. step_bind.
  destruct (Nat.ltb_spec (JsMap.size (workers s)) (numCPUs s)) as [Hlt|Hge].
  - step_bind. step_bind. rewrite forEach_send. reflexivity.
  - replace short with 0 by (unfold short; lia).
    step_bind. step_bind. rewrite forEach_send. reflexivity.
Qed.

Lemma monitorWorkers_worker (s : Master) :
  isMaster s = false -> monitorWorkers s = (Normal tt, s, []).
Proof.
  intros Hm. unfold monitorWorkers. step_bind.
  unfold gets at 1. now rewrite Hm.
Qed.

Lemma shutdownGracefully_eq (s : Master) :
  shutdownGracefully s
  = if 0 <? length (awaited (workers s))
    then (Normal tt,
          set_waits (waits s ++ [awaited (workers s)]) s,
          shutdown_messages (workers s))
    else (Halt, set_exitCode (Some 0%Z) s,
          shutdown_messages (workers s) ++ [ProcessExit 0]).
Proof.
  unfold shutdownGracefully. step_bind. step_bind.
  cbn [app]. fold (awaited (workers s)).
  unfold bind, gets, shutdown_messages.
  destruct (0 <? length (awaited (workers s))); cbn.
  - now rewrite app_nil_r.
  - reflexivity.
Qed.

Lemma restartWorkers_eq (s : Master) :
  restartWorkers s
  = (Normal tt, s,
     if isMaster s then terminations (JsMap.values (workers s)) else []).
Proof.
  unfold restartWorkers. step_bind. unfold gets at 1.
  destruct (isMaster s); cbn [negb]; [|reflexivity].
  step_bind. rewrite forEach_kill. reflexivity.
Qed.

Lemma scaleWorkers_up (count : nat) (s : Master) :
  isMaster s = true ->
  JsMap.size (workers s) < count ->
  let toAdd := count - JsMap.size (workers s) in
  scaleWorkers count s
  = (Normal tt, fork_n toAdd s, map Fork (seq (S (ids s)) toAdd)).
Proof.
  intros Hm Hlt toAdd. unfold scaleWorkers.
  step_bind. unfold gets at 1. rewrite Hm. cbn [negb].
  step_bind.
  apply Nat.ltb_lt in Hlt. unfold gets at 1. rewrite Hlt.
  rewrite times_forkWorker. reflexivity.
Qed.

Lemma scaleWorkers_down (count : nat) (s : Master) :
  isMaster s = true ->
  count < JsMap.size (workers s) ->
  let toRemove := JsMap.size (workers s) - count in
  scaleWorkers count s
  = (Normal tt, s,
     terminations (firstn toRemove (JsMap.values (workers s)))).
Proof.
  intros Hm Hlt toRemove. unfold scaleWorkers.
  step_bind. unfold gets at 1. rewrite Hm. cbn [negb].
  step_bind. unfold gets at 1.
  destruct (Nat.ltb_spec (JsMap.size (workers s)) count) as [|_]; [lia|].
  apply Nat.ltb_lt in Hlt. rewrite Hlt.
  step_bind. rewrite forEach_index. reflexivity.
Qed.

Lemma scaleWorkers_same (count : nat) (s : Master) :
  isMaster s = false \/ count = JsMap.size (workers s) ->
  scaleWorkers count s = (Normal tt, s, []).
Proof.
  intros H. unfold scaleWorkers. step_bind. unfold gets at 1.
  destruct (isMaster s); cbn [negb]; [|reflexivity].
  destruct H as [H| ->]; [discriminate|].
  step_bind. unfold gets at 1. now rewrite Nat.ltb_irrefl.
Qed.

Lemma fresh_boot_state (cpus : nat) (m : bool) : fresh (LoadBalancer cpus m).
Proof. constructor. Qed.

Lemma boot_eq (cpus : nat) : boot cpus = forked cpus (LoadBalancer cpus true).
Proof.
  unfold boot, run_handler, startMaster. cbn [exitCode LoadBalancer].
  step_bind. cbn [negb isMaster LoadBalancer gets].
  step_bind. rewrite times_forkWorker. cbn [fst].
  apply fork_n_fresh, fresh_boot_state.
Qed.

Lemma filter_spawned (from n : nat) :
  filter isConnected (JsMap.values (spawned from n))
  = JsMap.values (spawned from n).
Proof.
  unfold spawned, JsMap.values. rewrite map_map. cbn [snd].
  induction (seq (S from) n) as [|i l IH]; [reflexivity|].
  cbn. now rewrite IH.
Qed.

(** ** Startup *)

Lemma startMaster_run (cpus : nat) :
  run_handler startMaster (LoadBalancer cpus true)
  = (boot cpus, map Fork (seq 1 cpus)).
Proof.
  unfold boot, run_handler, startMaster. cbn [exitCode LoadBalancer].
  step_bind. cbn [negb isMaster LoadBalancer gets].
  step_bind. rewrite times_forkWorker. reflexivity.
Qed.

Lemma validateEnv_CLUSTER_WORKERS (penv : ProcessEnv.t) (cpus : nat)
  (env : Env.t) :
  validateEnv penv cpus = Some env ->
  Env.CLUSTER_WORKERS env
  = match ProcessEnv.CLUSTER_WORKERS penv with
    | Some n => n
    | None => cpus
    end.
Proof.
  unfold validateEnv.
  destruct (negb (valid_NODE_ENV _)); [discriminate|].
  destruct (ProcessEnv.CLUSTER_WORKERS penv) as [n|].
  - destruct ((1 <=? n) && (n <=? 16)); [|discriminate].
    now intros [= <-].
  - now intros [= <-].
Qed.

(** C3.  Whenever the startup script takes the master branch, the
    supervisor it constructs has the host's core count as its target and
    forks that many workers, whatever [CLUSTER_WORKERS] says: the value
    [validateEnv] reports (the configured one, the core count only when
    none is set) never reaches the [LoadBalancer] constructor. *)
Theorem startup_ignores_CLUSTER_WORKERS (penv : ProcessEnv.t)
  (cpus : nat) (env : Env.t) (s : Master) (log : list Action) :
  startup penv cpus true = AsMaster env s log ->
  Env.CLUSTER_WORKERS env
  = match ProcessEnv.CLUSTER_WORKERS penv with
    | Some n => n
    | None => cpus
    end
  /\ numCPUs s = cpus
  /\ log = map Fork (seq 1 cpus)
  /\ JsMap.size (workers s) = cpus.
Proof.
  unfold startup.
  destruct (validateEnv penv cpus) as [env'|] eqn:Ev; [|discriminate].
  destruct (true && Env.ENABLE_CLUSTER env'); [|discriminate].
  rewrite startMaster_run. intros [= <- <- <-].
  split; [now apply validateEnv_CLUSTER_WORKERS|].
  rewrite boot_eq. split; [reflexivity|]. split; [reflexivity|].
  rewrite size_forked. reflexivity.
Qed.

(** ** The health-check tick *)

(** C6.  A tick of the monitoring timer on a live master forks exactly
    the shortfall [numCPUs - size], computed from the registry size the
    tick finds (nothing when the pool is not short), the new entries being
    appended to the registry; it then sends "health-check" to exactly the
    workers of the resulting registry whose channel is connected. *)
Theorem monitorWorkers_tick (s : Master) :
  exitCode s = None ->
  isMaster s = true ->
  fresh s ->
  let short := numCPUs s - JsMap.size (workers s) in
  step Interval s
  = (forked short s,
     map Fork (seq (S (ids s)) short)
     ++ health_checks (workers (forked short s))).
Proof.
  intros Hrun Hm Hf short.
  unfold step, handlers, run_handlers, run_handler. rewrite Hrun.
  rewrite (monitorWorkers_eq s Hm). fold short.
  rewrite (fork_n_fresh short Hf), app_nil_r. reflexivity.
Qed.

(** C10.  When the registry is at or above the target, [monitorWorkers]
    leaves the whole supervisor state as it found it and its only effects
    are the health-check messages: nothing is forked or signalled, and no
    number of ticks brings an oversized pool back to the target. *)
Theorem monitorWorkers_never_shrinks (s : Master) :
  numCPUs s <= JsMap.size (workers s) ->
  monitorWorkers s
  = (Normal tt, s, if isMaster s then health_checks (workers s) else [])
  /\ forall n, fst (run (repeat Interval n) s) = s.
Proof.
  intros Hge.
  assert (E : monitorWorkers s
    = (Normal tt, s, if isMaster s then health_checks (workers s) else [])).
  { destruct (isMaster s) eqn:Hm.
    - rewrite (monitorWorkers_eq s Hm).
      replace (numCPUs s - JsMap.size (workers s)) with 0 by lia.
      reflexivity.
    - now apply monitorWorkers_worker. }
  split; [exact E|].
  induction n as [|n IH]; [reflexivity|].
  cbn [repeat run]. unfold step, handlers, run_handlers, run_handler.
  destruct (exitCode s) eqn:Hx.
  - destruct (run (repeat Interval n) s) as [s2 l2] eqn:R.
    cbn in *. exact IH.
  - rewrite E.
    destruct (run (repeat Interval n) s) as [s2 l2] eqn:R.
    cbn in *. exact IH.
Qed.

(** ** Scaling up *)

(** C7.  [scaleWorkers(count)] above the current size performs exactly
    [count - size] forks and nothing else: no signal, no message.  The
    registry keeps every old entry in its place and grows to [count]. *)
Theorem scaleWorkers_scale_up (count : nat) (s : Master) :
  isMaster s = true ->
  fresh s ->
  JsMap.size (workers s) < count ->
  let toAdd := count - JsMap.size (workers s) in
  scaleWorkers count s
  = (Normal tt, forked toAdd s, map Fork (seq (S (ids s)) toAdd))
  /\ JsMap.size (workers (forked toAdd s)) = count
  /\ firstn (JsMap.size (workers s)) (workers (forked toAdd s)) = workers s.
Proof.
  intros Hm Hf Hlt toAdd. split; [|split].
  - rewrite (scaleWorkers_up s Hm Hlt). fold toAdd.
    now rewrite (fork_n_fresh toAdd Hf).
  - rewrite size_forked. unfold toAdd. lia.
  - unfold forked, JsMap.size. cbn.
    rewrite firstn_app, Nat.sub_diag, firstn_all. cbn.
    now rewrite app_nil_r.
Qed.

(** ** Statistics *)

(** C9.  [getStats] yields no result in a worker process; in the master
    it yields a snapshot whose [total] is the registry size, [expected]
    the target and [active] the number of registered workers with a
    connected channel.  After a clean start on [n] cores (target [n]) all
    three are [n]; in particular 4 of 4 are active when the target is 4
    and the four workers have come online. *)
Theorem getStats_snapshot :
  (forall s,
     if isMaster s
     then exists st,
            getStats s = Some st
            /\ Stats.total (Stats.workers st) = JsMap.size (workers s)
            /\ Stats.expected (Stats.workers st) = numCPUs s
            /\ Stats.active (Stats.workers st)
               = length (filter isConnected (JsMap.values (workers s)))
     else getStats s = None)
  /\ (forall n,
        exists st,
          getStats (boot n) = Some st
          /\ Stats.total (Stats.workers st) = n
          /\ Stats.expected (Stats.workers st) = n
          /\ Stats.active (Stats.workers st) = n)
  /\ (exists st,
        getStats (fst (run [Online (newWorker 1); Online (newWorker 2);
                            Online (newWorker 3); Online (newWorker 4)]
                           (boot 4))) = Some st
        /\ Stats.active (Stats.workers st) = 4
        /\ Stats.expected (Stats.workers st) = 4).
Proof.
  split; [|split].
  - intros s. unfold getStats. destruct (isMaster s); cbn [negb].
    + eexists; split; [reflexivity|]. repeat split.
    + reflexivity.
  - intros n. rewrite boot_eq. unfold getStats. cbn [isMaster forked
      set_ids set_workers LoadBalancer negb].
    eexists; split; [reflexivity|]. cbn [Stats.total Stats.expected
      Stats.active Stats.workers].
    change (workers (forked n (LoadBalancer n true))) with (spawned 0 n).
    fold isConnected. rewrite filter_spawned.
    unfold JsMap.size, JsMap.values, spawned.
    rewrite !length_map, length_seq. repeat split.
  - eexists; split; [vm_compute; reflexivity|]. split; reflexivity.
Qed.

(** ** The worker process *)

(** C8.  A started worker whose channel is open exits with code 0 when
    the "shutdown" message arrives and keeps running, after sending its
    health report, when "health-check" arrives; an uncaught exception or
    an unhandled rejection makes it exit with code 1 at once. *)
Theorem worker_control_messages (p : WorkerProcess.t) :
  WorkerProcess.exitCode p = None ->
  WorkerProcess.connected p = true ->
  WorkerProcess.exitCode
    (WorkerProcess.step (WorkerProcess.Message "shutdown") p) = Some 0%Z
  /\ WorkerProcess.exitCode
       (WorkerProcess.step WorkerProcess.UncaughtException p) = Some 1%Z
  /\ WorkerProcess.exitCode
       (WorkerProcess.step WorkerProcess.UnhandledRejection p) = Some 1%Z
  /\ WorkerProcess.step (WorkerProcess.Message "health-check") p
     = {| WorkerProcess.connected := true;
          WorkerProcess.reports := S (WorkerProcess.reports p);
          WorkerProcess.exitCode := None |}.
Proof.
  intros Hrun Hc. unfold WorkerProcess.step. rewrite Hrun, Hc.
  cbn. unfold WorkerProcess.process_send. rewrite Hc, Hrun.
  repeat split.
Qed.

(** ** Graceful shutdown *)

(** C5.  Two calls of [shutdownGracefully] in succession (the second
    runs only if the first did not already end the process) never throw,
    fork nothing and leave the registry alone, and every "shutdown"
    message either call sends goes to a registered worker whose channel
    is connected: a disconnected worker is sent nothing, neither the
    first nor the second time. *)
Theorem shutdownGracefully_twice (s : Master) :
  let '(c, s', log) := (shutdownGracefully ;; shutdownGracefully) s in
  (forall e, c <> Throw e)
  /\ (forall w, ~ In (Fork w) log)
  /\ ids s' = ids s
  /\ workers s' = workers s
  /\ (forall w msg, In (Send w msg) log ->
        msg = "shutdown"%string
        /\ exists worker,
             In worker (JsMap.values (workers s))
             /\ id worker = w /\ connected (process worker) = true).
Proof.
  assert (Hsend : forall w msg,
    In (Send w msg) (shutdown_messages (workers s)) ->
    msg = "shutdown"%string
    /\ exists worker, In worker (JsMap.values (workers s))
         /\ id worker = w /\ connected (process worker) = true).
  { intros w msg Hin. unfold shutdown_messages in Hin.
    apply in_map_iff in Hin as (worker & Heq & Hin).
    apply filter_In in Hin as [Hin Hc]. inversion Heq; subst.
    split; [reflexivity|]. now exists worker. }
  assert (Hfork : forall w, ~ In (Fork w) (shutdown_messages (workers s))).
  { intros w Hin. unfold shutdown_messages in Hin.
    apply in_map_iff in Hin as (worker & Heq & _). discriminate. }
  unfold bind. rewrite shutdownGracefully_eq.
  destruct (0 <? length (awaited (workers s))) eqn:E.
  - rewrite shutdownGracefully_eq. cbn [workers set_waits].
    rewrite E. cbn [ids workers set_waits].
    split; [discriminate|]. split; [|split; [reflexivity|split]].
    + intros w Hin. apply in_app_or in Hin as [Hin|Hin];
        exact (Hfork w Hin).
    + reflexivity.
    + intros w msg Hin. apply in_app_or in Hin as [Hin|Hin];
        exact (Hsend w msg Hin).
  - cbn [ids workers set_exitCode].
    split; [discriminate|]. split; [|split; [reflexivity|split]].
    + intros w Hin. apply in_app_or in Hin as [Hin|[Hin|[]]];
        [exact (Hfork w Hin) | discriminate].
    + reflexivity.
    + intros w msg Hin. apply in_app_or in Hin as [Hin|[Hin|[]]];
        [exact (Hsend w msg Hin) | discriminate].
Qed.

(** ** The event loop *)

Lemma run_handler_exited (h : M unit) (s : Master) (c : Z) :
  exitCode s = Some c -> run_handler h s = (s, []).
Proof. intros H. unfold run_handler. now rewrite H. Qed.

Lemma run_handlers_exited (hs : list (M unit)) (s : Master) (c : Z) :
  exitCode s = Some c -> run_handlers hs s = (s, []).
Proof.
  intros H. induction hs as [|h hs IH]; [reflexivity|].
  cbn [run_handlers]. now rewrite (run_handler_exited h s H), IH.
Qed.

Lemma step_exited (e : Event) (s : Master) (c : Z) :
  exitCode s = Some c -> step e s = (s, []).
Proof. apply run_handlers_exited. Qed.

Lemma run_exited (evs : list Event) (s : Master) (c : Z) :
  exitCode s = Some c -> run evs s = (s, []).
Proof.
  intros H. induction evs as [|e evs IH]; [reflexivity|].
  cbn [run]. now rewrite (step_exited e s H), IH.
Qed.

(** Apart from [disconnect] and the signals, no event touches the
    suspended shutdown calls or ends the process. *)
Lemma step_steady (e : Event) (s : Master) :
  exitCode s = None ->
  match e with Disconnect _ | Signal => False | _ => True end ->
  exitCode (fst (step e s)) = None /\ waits (fst (step e s)) = waits s.
Proof.
  intros Hrun He.
  destruct e as [w|w|w| | | |count|]; try contradiction;
    unfold step, handlers, run_handlers, run_handler; rewrite Hrun.
  - cbn. now split.
  - cbn. now split.
  - unfold on_timeout. step_bind. unfold gets.
    destruct (timers s) as [|n]; cbn; now split.
  - destruct (isMaster s) eqn:Hm.
    + rewrite (monitorWorkers_eq s Hm). cbn [fst].
      destruct (fork_n_frame (numCPUs s - JsMap.size (workers s)) s)
        as (_ & _ & _ & Hw & Hx & _).
      rewrite Hw, Hx. now split.
    + rewrite (monitorWorkers_worker s Hm). now split.
  - destruct (isMaster s) eqn:Hm.
    + destruct (Nat.lt_trichotomy (JsMap.size (workers s)) count)
        as [Hlt|[Heq|Hgt]].
      * rewrite (scaleWorkers_up s Hm Hlt). cbn [fst].
        destruct (fork_n_frame (count - JsMap.size (workers s)) s)
          as (_ & _ & _ & Hw & Hx & _).
        rewrite Hw, Hx. now split.
      * rewrite scaleWorkers_same by (right; now symmetry). now split.
      * rewrite (scaleWorkers_down s Hm Hgt). now split.
    + rewrite scaleWorkers_same by now left. now split.
  - rewrite restartWorkers_eq. now split.
Qed.

(** A [disconnect] of worker [w] while one shutdown call is suspended on
    the workers [pending]. *)
Lemma step_disconnect (w : Worker) (pending : list nat) (s : Master) :
  exitCode s = None ->
  waits s = [pending] ->
  let rest := filter (fun i => negb (i =? id w)) pending in
  exitCode (fst (step (Disconnect w) s))
  = (if settled rest then Some 0%Z else None)
  /\ (settled rest = false -> waits (fst (step (Disconnect w) s)) = [rest]).
Proof.
  intros Hrun Hw rest.
  unfold step, handlers, run_handlers, run_handler. rewrite Hrun.
  unfold resolve, on_disconnect, workers_delete, modify.
  cbn [exitCode set_waits set_workers]. rewrite Hrun.
  unfold resume. cbn [exitCode set_waits set_workers]. rewrite Hrun.
  unfold bind, gets. cbn [waits set_waits set_workers]. rewrite Hw.
  cbn [map existsb]. fold rest. rewrite orb_false_r.
  destruct (settled rest) eqn:E; cbn.
  - split; [reflexivity|discriminate].
  - now split.
Qed.

Lemma forallb_mem_cons (w : nat) (D pending : list nat) :
  forallb (fun i => mem i (w :: D)) pending
  = forallb (fun i => mem i D) (filter (fun i => negb (i =? w)) pending).
Proof.
  induction pending as [|i l IH]; [reflexivity|].
  cbn [forallb filter]. rewrite IH. unfold mem at 1. cbn [existsb].
  destruct (Nat.eqb_spec i w) as [->|Hne]; reflexivity.
Qed.

(** With one call suspended on a non-empty set of workers, the master
    has exited, and then with code 0, exactly when each of those workers
    has had its [disconnect] event. *)
Lemma run_suspended (evs : list Event) : forall (s : Master) pending,
  exitCode s = None ->
  waits s = [pending] ->
  settled pending = false ->
  no_signal evs = true ->
  exitCode (fst (run evs s))
  = if forallb (fun i => mem i (disconnected evs)) pending
    then Some 0%Z else None.
Proof.
  induction evs as [|e evs IH]; intros s pending Hrun Hw Hp Hs.
  - destruct pending; [discriminate|]. cbn. exact Hrun.
  - cbn [run].
    destruct (step e s) as [s1 l1] eqn:Es.
    destruct (run evs s1) as [s2 l2] eqn:Er. cbn [fst].
    assert (Hs' : no_signal evs = true).
    { cbn in Hs. now apply andb_prop in Hs as [_ Hs]. }
    assert (E2 : s2 = fst (run evs s1)) by now rewrite Er.
    assert (E1 : s1 = fst (step e s)) by now rewrite Es.
    destruct e as [w|w|w| | | |count|];
      try (match type of Es with
           | step ?e s = _ => destruct (@step_steady e s Hrun I) as [Hx Hww]
           end;
           rewrite <- E1 in Hx, Hww;
           rewrite E2; cbn [disconnected flat_map app];
           apply IH; [assumption|congruence|assumption|assumption]).
    + destruct (@step_disconnect w pending s Hrun Hw) as [Hx Hww].
      rewrite <- E1 in Hx, Hww.
      cbn [disconnected flat_map app]. fold (disconnected evs).
      rewrite forallb_mem_cons.
      destruct (settled (filter (fun i => negb (i =? id w)) pending))
        eqn:E.
      * rewrite E2, (run_exited evs s1 Hx). cbn [fst]. rewrite Hx.
        destruct (filter (fun i => negb (i =? id w)) pending);
          [reflexivity|discriminate].
      * rewrite E2. apply IH; auto.
    + discriminate.
Qed.

(** [fresh] is an invariant of the event loop. *)

Lemma fresh_same (s s' : Master) :
  workers s' = workers s -> ids s <= ids s' -> fresh s -> fresh s'.
Proof.
  unfold fresh. intros -> Hle H.
  eapply Forall_impl; [|exact H]. cbn; lia.
Qed.

Lemma keys_delete (k : nat) (m : JsMap.t Worker) (P : nat -> Prop) :
  Forall P (JsMap.keys m) -> Forall P (JsMap.keys (JsMap.delete k m)).
Proof.
  unfold JsMap.keys, JsMap.delete.
  induction m as [|[k' v] m IH]; cbn; intros H; [constructor|].
  inversion H; subst.
  destruct (k' =? k); cbn; [now apply IH|]. constructor; auto.
Qed.

Lemma keys_set (k : nat) (v : Worker) (m : JsMap.t Worker)
  (P : nat -> Prop) :
  P k -> Forall P (JsMap.keys m) -> Forall P (JsMap.keys (JsMap.set k v m)).
Proof.
  unfold JsMap.keys. intros Hk.
  induction m as [|[k' v'] m IH]; cbn; intros H.
  - now constructor.
  - inversion H; subst.
    destruct (k' =? k); cbn; constructor; auto.
Qed.

Lemma fresh_fork_n (n : nat) : forall s, fresh s -> fresh (fork_n n s).
Proof.
  induction n as [|n IH]; intros s H; [exact H|].
  cbn [fork_n]. now apply IH, fresh_fork_state.
Qed.

Lemma fresh_step (e : Event) (s : Master) :
  fresh s -> event_ok s e -> fresh (fst (step e s)).
Proof.
  intros Hf He.
  destruct (exitCode s) as [c|] eqn:Hrun.
  { now rewrite (step_exited e s Hrun). }
  destruct e as [w|w|w| | | |count|];
    unfold step, handlers, run_handlers, run_handler; rewrite Hrun.
  - cbn. unfold fresh; cbn. now apply keys_set.
  - unfold resolve, on_disconnect, workers_delete, modify.
    cbn [exitCode set_waits set_workers]. rewrite Hrun.
    unfold resume, bind, gets. cbn [exitCode set_waits set_workers waits].
    rewrite Hrun.
    destruct (existsb settled _); cbn; unfold fresh; cbn;
      now apply keys_delete.
  - cbn. unfold fresh; cbn. now apply keys_delete.
  - unfold on_timeout. step_bind. unfold gets.
    destruct (timers s) as [|n]; cbn; [exact Hf|].
    apply (@fresh_fork_state (set_timers n s)). exact Hf.
  - destruct (isMaster s) eqn:Hm.
    + rewrite (monitorWorkers_eq s Hm). cbn [fst].
      now apply fresh_fork_n.
    + now rewrite (monitorWorkers_worker s Hm).
  - rewrite shutdownGracefully_eq.
    destruct (0 <? length (awaited (workers s))) eqn:E.
    + cbn [exitCode set_waits]. rewrite Hrun, shutdownGracefully_eq.
      cbn [workers set_waits]. rewrite E. cbn. exact Hf.
    + cbn. exact Hf.
  - destruct (isMaster s) eqn:Hm.
    + destruct (Nat.lt_trichotomy (JsMap.size (workers s)) count)
        as [Hlt|[Heq|Hgt]].
      * rewrite (scaleWorkers_up s Hm Hlt). cbn [fst].
        now apply fresh_fork_n.
      * now rewrite scaleWorkers_same by (right; now symmetry).
      * now rewrite (scaleWorkers_down s Hm Hgt).
    + now rewrite scaleWorkers_same by now left.
  - now rewrite restartWorkers_eq.
Qed.

Lemma fresh_run (evs : list Event) : forall s,
  fresh s -> events_ok evs s -> fresh (fst (run evs s)).
Proof.
  induction evs as [|e evs IH]; intros s Hf Hok; [exact Hf|].
  destruct Hok as [He Hok]. cbn [run].
  pose proof (fresh_step e Hf He) as Hf1.
  destruct (step e s) as [s1 l1]. cbn [fst] in *.
  specialize (IH s1 Hf1 Hok).
  destruct (run evs s1) as [s2 l2]. exact IH.
Qed.

(** So is [keyed], like every property of the registry that [delete]
    and [set(worker.id, worker)] maintain. *)

Lemma workers_fork_n (P : JsMap.t Worker -> Prop) :
  (forall w r, P r -> P (JsMap.set (id w) w r)) ->
  forall n s, P (workers s) -> P (workers (fork_n n s)).
Proof.
  intros Hset. induction n as [|n IH]; intros s H; [exact H|].
  cbn [fork_n]. apply IH. cbn.
  exact (Hset (newWorker (S (ids s))) _ H).
Qed.

Lemma step_registry (P : JsMap.t Worker -> Prop) :
  (forall k r, P r -> P (JsMap.delete k r)) ->
  (forall w r, P r -> P (JsMap.set (id w) w r)) ->
  forall e s, P (workers s) -> P (workers (fst (step e s))).
Proof.
  intros Hdel Hset e s H.
  destruct (exitCode s) as [c|] eqn:Hrun.
  { now rewrite (step_exited e s Hrun). }
  destruct e as [w|w|w| | | |count|];
    unfold step, handlers, run_handlers, run_handler; rewrite Hrun.
  - cbn. now apply Hset.
  - unfold resolve, on_disconnect, workers_delete, modify.
    cbn [exitCode set_waits set_workers]. rewrite Hrun.
    unfold resume, bind, gets. cbn [exitCode set_waits set_workers waits].
    rewrite Hrun.
    destruct (existsb settled _); cbn; now apply Hdel.
  - cbn. now apply Hdel.
  - unfold on_timeout. step_bind. unfold gets.
    destruct (timers s) as [|n]; cbn; [exact H|].
    exact (Hset (newWorker (S (ids s))) _ H).
  - destruct (isMaster s) eqn:Hm.
    + rewrite (monitorWorkers_eq s Hm). cbn [fst].
      now apply workers_fork_n.
    + now rewrite (monitorWorkers_worker s Hm).
  - rewrite shutdownGracefully_eq.
    destruct (0 <? length (awaited (workers s))) eqn:E.
    + cbn [exitCode set_waits]. rewrite Hrun, shutdownGracefully_eq.
      cbn [workers set_waits]. rewrite E. cbn. exact H.
    + cbn. exact H.
  - destruct (isMaster s) eqn:Hm.
    + destruct (Nat.lt_trichotomy (JsMap.size (workers s)) count)
        as [Hlt|[Heq|Hgt]].
      * rewrite (scaleWorkers_up s Hm Hlt). cbn [fst].
        now apply workers_fork_n.
      * now rewrite scaleWorkers_same by (right; now symmetry).
      * now rewrite (scaleWorkers_down s Hm Hgt).
    + now rewrite scaleWorkers_same by now left.
  - now rewrite restartWorkers_eq.
Qed.

Lemma keys_delete_eq (k : nat) (m : JsMap.t Worker) :
  JsMap.keys (JsMap.delete k m)
  = filter (fun x => negb (x =? k)) (JsMap.keys m).
Proof.
  unfold JsMap.keys, JsMap.delete.
  induction m as [|[k' v] m IH]; [reflexivity|]. cbn.
  destruct (k' =? k); cbn; now rewrite IH.
Qed.

Lemma keys_set_eq (k : nat) (v : Worker) (m : JsMap.t Worker) :
  JsMap.keys (JsMap.set k v m)
  = if mem k (JsMap.keys m) then JsMap.keys m else JsMap.keys m ++ [k].
Proof.
  unfold JsMap.keys, mem.
  induction m as [|[k' v'] m IH]; [reflexivity|]. cbn.
  rewrite (Nat.eqb_sym k k').
  destruct (Nat.eqb_spec k' k) as [->|Hne]; cbn; [reflexivity|].
  rewrite IH. now destruct (existsb (Nat.eqb k) (map fst m)).
Qed.

Lemma keyed_delete (k : nat) (r : JsMap.t Worker) :
  keyed r -> keyed (JsMap.delete k r).
Proof.
  intros [Hk Hnd]. split.
  - unfold JsMap.delete. rewrite Forall_forall in *.
    intros e He. apply filter_In in He as [He _]. now apply Hk.
  - rewrite keys_delete_eq. now apply NoDup_filter.
Qed.

Lemma keyed_set (w : Worker) (r : JsMap.t Worker) :
  keyed r -> keyed (JsMap.set (id w) w r).
Proof.
  intros [Hk Hnd]. split.
  - clear Hnd. induction Hk as [|[k' v'] r Hk' Hk IH]; cbn.
    + now repeat constructor.
    + destruct (k' =? id w); constructor; auto.
  - rewrite keys_set_eq.
    destruct (mem (id w) (JsMap.keys r)) eqn:E; [exact Hnd|].
    apply NoDup_app; [exact Hnd|repeat constructor; intros []|].
    intros k Hin [<-|[]].
    unfold mem in E. apply Bool.not_true_iff_false in E. apply E.
    apply existsb_exists. exists (id w).
    split; [exact Hin|apply Nat.eqb_refl].
Qed.

Lemma keyed_step (e : Event) (s : Master) :
  keyed (workers s) -> keyed (workers (fst (step e s))).
Proof.
  apply step_registry; [apply keyed_delete|apply keyed_set].
Qed.

(** C4.  A first [shutdownGracefully] on a live master sends "shutdown"
    to each registered worker whose channel is connected, and to nobody
    else.  Whatever events follow (short of another signal), the master
    has exited exactly when every one of those workers has had its
    [disconnect] event, and its exit code is then 0. *)
Theorem shutdownGracefully_waits (s : Master) (evs : list Event) :
  exitCode s = None ->
  waits s = [] ->
  no_signal evs = true ->
  let '(s1, log) := run_handler shutdownGracefully s in
  log = shutdown_messages (workers s)
        ++ (if settled (awaited (workers s)) then [ProcessExit 0] else [])
  /\ exitCode (fst (run evs s1))
     = if forallb (fun i => mem i (disconnected evs)) (awaited (workers s))
       then Some 0%Z else None.
Proof.
  intros Hrun Hw Hs. unfold run_handler. rewrite Hrun.
  rewrite shutdownGracefully_eq.
  destruct (awaited (workers s)) as [|i pending] eqn:E.
  - cbn [length Nat.ltb Nat.leb settled forallb]. split; [reflexivity|].
    erewrite run_exited by reflexivity. reflexivity.
  - cbn [length Nat.ltb Nat.leb settled]. split; [now rewrite app_nil_r|].
    apply run_suspended; cbn; try reflexivity; try assumption.
    now rewrite Hw.
Qed.

(** C2, as the code has it.  The exit handler has no shutdown mode:
    on a live master, whether or not a [shutdownGracefully] call is
    waiting, a worker's exit schedules a replacement and the timer, when
    it fires, forks it.  What does hold is that [shutdownGracefully]
    itself forks nothing, and that nothing at all happens once the master
    has exited. *)
Theorem exit_schedules_replacement (s : Master) (w : Worker) :
  exitCode s = None ->
  snd (run [Exit w; TimerFired] s) = [SetTimeout 1000; Fork (S (ids s))]
  /\ (forall i, ~ In (Fork i) (snd (shutdownGracefully s)))
  /\ (forall c e, step e (set_exitCode (Some c) s)
                  = (set_exitCode (Some c) s, [])).
Proof.
  intros Hrun. split; [|split].
  - unfold run, step, handlers, run_handlers, run_handler. rewrite Hrun.
    cbn. rewrite Hrun. reflexivity.
  - intros i. rewrite shutdownGracefully_eq.
    destruct (0 <? length (awaited (workers s))); cbn [snd]; intros Hin.
    + apply in_map_iff in Hin as (x & Hx & _). discriminate.
    + apply in_app_or in Hin as [Hin|[Hin|[]]]; [|discriminate].
      apply in_map_iff in Hin as (x & Hx & _). discriminate.
  - intros c e. now apply step_exited with (c := c).
Qed.

(** ** Scaling down *)

Lemma run_app (evs1 evs2 : list Event) : forall s,
  run (evs1 ++ evs2) s
  = (let '(s1, l1) := run evs1 s in
     let '(s2, l2) := run evs2 s1 in (s2, l1 ++ l2)).
Proof.
  induction evs1 as [|e evs1 IH]; intros s; cbn [app run].
  - now destruct (run evs2 s).
  - destruct (step e s) as [s0 l0]. rewrite IH.
    destruct (run evs1 s0) as [s1 l1].
    destruct (run evs2 s1) as [s2 l2]. now rewrite app_assoc.
Qed.

Lemma filter_absent (k : nat) (l : list nat) :
  ~ In k l -> filter (fun x => negb (x =? k)) l = l.
Proof.
  induction l as [|x l IH]; [reflexivity|]. cbn. intros H.
  destruct (Nat.eqb_spec x k) as [->|_]; cbn.
  - exfalso. apply H. now left.
  - rewrite IH; [reflexivity|]. intros Hin. apply H. now right.
Qed.

Lemma length_remove_key (k : nat) (l : list nat) :
  NoDup l -> In k l ->
  S (length (filter (fun x => negb (x =? k)) l)) = length l.
Proof.
  induction 1 as [|x l Hx Hnd IH]; [contradiction|]. cbn.
  intros [->|Hin].
  - rewrite Nat.eqb_refl. cbn. now rewrite filter_absent.
  - destruct (Nat.eqb_spec x k) as [->|_]; [contradiction|].
    cbn. now rewrite IH.
Qed.

(** Deleting distinct registered keys removes one entry each. *)
Lemma size_delete_all (ks : list nat) : forall (m : JsMap.t Worker),
  NoDup (JsMap.keys m) -> NoDup ks -> incl ks (JsMap.keys m) ->
  JsMap.size (fold_left (fun r k => JsMap.delete k r) ks m) + length ks
  = JsMap.size m.
Proof.
  induction ks as [|k ks IH]; intros m Hm Hks Hin; cbn [fold_left length].
  - lia.
  - inversion Hks as [|? ? Hk Hks']; subst.
    assert (Hkm : In k (JsMap.keys m)) by (apply Hin; now left).
    rewrite Nat.add_succ_r, IH; try assumption.
    + unfold JsMap.size. rewrite <- (length_map fst (JsMap.delete k m)).
      fold (JsMap.keys (JsMap.delete k m)). rewrite keys_delete_eq.
      rewrite (@length_remove_key k _ Hm Hkm).
      unfold JsMap.keys. now rewrite length_map.
    + rewrite keys_delete_eq. now apply NoDup_filter.
    + intros x Hx. rewrite keys_delete_eq. apply filter_In. split.
      * apply Hin. now right.
      * destruct (Nat.eqb_spec x k) as [->|_]; [contradiction|reflexivity].
Qed.

Lemma firstn_incl (A : Type) (n : nat) (l : list A) :
  incl (firstn n l) l.
Proof.
  intros x H. rewrite <- (firstn_skipn n l). apply in_or_app. now left.
Qed.

(** The workers a scale-down signals are registered, under distinct
    ids. *)
Lemma killed_registered (n : nat) (l : list Worker) (w : Worker) :
  In w (filter isConnected (firstn n l)) -> In w l.
Proof.
  intros H. apply filter_In in H as [H _]. exact (@firstn_incl _ n l w H).
Qed.

Lemma killed_distinct (l : list Worker) : forall n,
  NoDup (map id l) ->
  NoDup (map id (filter isConnected (firstn n l))).
Proof.
  induction l as [|a l IH]; intros [|n] H; cbn [firstn filter map];
    try constructor.
  inversion H as [|? ? Ha Hl]; subst.
  destruct (isConnected a); cbn [map]; [constructor|]; auto.
  intros Hin. apply Ha. apply in_map_iff in Hin as (x & <- & Hx).
  apply in_map. exact (@killed_registered n l x Hx).
Qed.

Lemma keys_delete_all (P : nat -> Prop) (ks : list nat) :
  forall (m : JsMap.t Worker),
  Forall P (JsMap.keys m) ->
  Forall P (JsMap.keys (fold_left (fun r k => JsMap.delete k r) ks m)).
Proof.
  induction ks as [|k ks IH]; intros m H; [exact H|].
  cbn [fold_left]. now apply IH, keys_delete.
Qed.

(** The exit events of the workers [l] on a live master: one deletion
    and one replacement timer each. *)
Lemma run_exits (l : list Worker) : forall s,
  exitCode s = None ->
  run (exits l) s
  = (set_timers (timers s + length l)
       (set_workers
          (fold_left (fun r k => JsMap.delete k r) (map id l) (workers s))
          s),
     repeat (SetTimeout 1000) (length l)).
Proof.
  induction l as [|w l IH]; intros s Hrun.
  - cbn. destruct s; unfold set_timers, set_workers; cbn.
    now rewrite Nat.add_0_r.
  - cbn [exits map run].
    assert (Es : step (Exit (gone (id w))) s
      = (set_timers (S (timers s))
           (set_workers (JsMap.delete (id w) (workers s)) s),
         [SetTimeout 1000])).
    { unfold step, handlers, run_handlers, run_handler. now rewrite Hrun. }
    rewrite Es. fold (exits l). rewrite IH by exact Hrun.
    cbn [fold_left length repeat app timers workers set_timers set_workers].
    unfold set_timers, set_workers; cbn.
    now rewrite Nat.add_succ_r.
Qed.

(** [n] pending replacement timers fire on a live master. *)
Lemma run_timers (n : nat) : forall s,
  exitCode s = None ->
  n <= timers s ->
  run (repeat TimerFired n) s
  = (fork_n n (set_timers (timers s - n) s),
     map Fork (seq (S (ids s)) n)).
Proof.
  induction n as [|n IH]; intros s Hrun Hn.
  - cbn. destruct s; unfold set_timers; cbn. now rewrite Nat.sub_0_r.
  - cbn [repeat run].
    destruct (timers s) as [|t] eqn:Et; [lia|].
    assert (Es : step TimerFired s
      = (fork_state (set_timers t s), [Fork (S (ids s))])).
    { unfold step, handlers, run_handlers, run_handler. rewrite Hrun.
      unfold on_timeout. step_bind. unfold gets. rewrite Et. reflexivity. }
    rewrite Es, IH by (cbn; try assumption; lia).
    cbn [fork_n timers fork_state set_workers set_ids set_timers ids seq map
         app Nat.sub].
    reflexivity.
Qed.

Lemma keys_keyed (r : JsMap.t Worker) :
  Forall (fun e => fst e = id (snd e)) r ->
  JsMap.keys r = map id (JsMap.values r).
Proof.
  unfold JsMap.keys, JsMap.values.
  induction 1 as [|[k w] r Hk _ IH]; [reflexivity|].
  cbn in *. now rewrite Hk, IH.
Qed.

(** C1.  On a live master, [scaleWorkers(count)] below the current size
    sends SIGTERM to the connected workers among the first
    [size - count] registry entries and leaves the registry alone.  When
    those workers exit, their entries go, but every exit schedules a
    replacement; once these timers have fired, as many workers have been
    forked as were terminated and the registry is back at its old size:
    it does not settle at [count]. *)
Theorem scale_down_is_undone (count : nat) (s : Master) :
  exitCode s = None ->
  isMaster s = true ->
  fresh s ->
  keyed (workers s) ->
  count < JsMap.size (workers s) ->
  let toRemove := JsMap.size (workers s) - count in
  let killed :=
    filter isConnected (firstn toRemove (JsMap.values (workers s))) in
  let due := repeat TimerFired (length killed) in
  step (ScaleWorkers count) s
  = (s, map (fun w => Kill (id w) "SIGTERM"%string) killed)
  /\ JsMap.size (workers (fst (run (exits killed) s))) + length killed
     = JsMap.size (workers s)
  /\ snd (run (exits killed ++ due) s)
     = repeat (SetTimeout 1000) (length killed)
       ++ map Fork (seq (S (ids s)) (length killed))
  /\ JsMap.size (workers (fst (run (exits killed ++ due) s)))
     = JsMap.size (workers s).
Proof.
  intros Hrun Hm Hf [Hkey Hnd] Hlt toRemove killed due.
  apply keys_keyed in Hkey.
  assert (Hsize :
    JsMap.size (fold_left (fun r k => JsMap.delete k r) (map id killed)
                          (workers s)) + length killed
    = JsMap.size (workers s)).
  { rewrite <- (length_map id killed). apply size_delete_all.
    - exact Hnd.
    - apply killed_distinct. now rewrite <- Hkey.
    - intros k Hk. rewrite Hkey.
      apply in_map_iff in Hk as (w & <- & Hw).
      apply in_map. exact (@killed_registered _ _ w Hw). }
  split; [|split; [|split]].
  - unfold step, handlers, run_handlers, run_handler. rewrite Hrun.
    rewrite (scaleWorkers_down s Hm Hlt). now rewrite app_nil_r.
  - rewrite (run_exits killed s Hrun). exact Hsize.
  - rewrite run_app, (run_exits killed s Hrun).
    unfold due. rewrite run_timers by (cbn; try assumption; lia).
    reflexivity.
  - rewrite run_app, (run_exits killed s Hrun).
    unfold due. rewrite run_timers by (cbn; try assumption; lia).
    cbn [fst]. rewrite fork_n_fresh.
    + rewrite size_forked. cbn [workers set_timers set_workers].
      exact Hsize.
    + unfold fresh. cbn [workers ids set_timers set_workers].
      now apply keys_delete_all.
Qed.

(** * Instances *)

Lemma monitorWorkers_tick_witness :
  exitCode short_pool = None
  /\ isMaster short_pool = true
  /\ fresh short_pool
  /\ step Interval short_pool
     = (forked 2 short_pool,
        [Fork 3; Fork 4; Send 1 "health-check"%string;
         Send 3 "health-check"%string; Send 4 "health-check"%string]).
Proof.
  assert (Hf : fresh short_pool) by (repeat constructor).
  split; [reflexivity|]. split; [reflexivity|]. split; [exact Hf|].
  exact (@monitorWorkers_tick short_pool eq_refl eq_refl Hf).
Defined.

Lemma monitorWorkers_never_shrinks_witness :
  numCPUs (forked 2 (boot 4)) <= JsMap.size (workers (forked 2 (boot 4)))
  /\ monitorWorkers (forked 2 (boot 4))
     = (Normal tt, forked 2 (boot 4),
        health_checks (workers (forked 2 (boot 4))))
  /\ forall n, fst (run (repeat Interval n) (forked 2 (boot 4)))
               = forked 2 (boot 4).
Proof.
  assert (H : numCPUs (forked 2 (boot 4))
              <= JsMap.size (workers (forked 2 (boot 4)))).
  { vm_compute. lia. }
  split; [exact H|].
  exact (@monitorWorkers_never_shrinks (forked 2 (boot 4)) H).
Defined.

Lemma scaleWorkers_scale_up_witness :
  isMaster (boot 4) = true
  /\ fresh (boot 4)
  /\ JsMap.size (workers (boot 4)) < 6
  /\ scaleWorkers 6 (boot 4)
     = (Normal tt, forked 2 (boot 4), [Fork 5; Fork 6])
  /\ JsMap.size (workers (forked 2 (boot 4))) = 6
  /\ firstn 4 (workers (forked 2 (boot 4))) = workers (boot 4).
Proof.
  assert (Hf : fresh (boot 4)) by (repeat constructor).
  assert (Hlt : JsMap.size (workers (boot 4)) < 6) by (vm_compute; lia).
  split; [reflexivity|]. split; [exact Hf|]. split; [exact Hlt|].
  exact (@scaleWorkers_scale_up 6 (boot 4) eq_refl Hf Hlt).
Defined.

Lemma worker_control_messages_witness :
  WorkerProcess.exitCode (WorkerProcess.start true) = None
  /\ WorkerProcess.connected (WorkerProcess.start true) = true
  /\ WorkerProcess.exitCode
       (WorkerProcess.step (WorkerProcess.Message "shutdown")
          (WorkerProcess.start true)) = Some 0%Z
  /\ WorkerProcess.exitCode
       (WorkerProcess.step WorkerProcess.UncaughtException
          (WorkerProcess.start true)) = Some 1%Z
  /\ WorkerProcess.exitCode
       (WorkerProcess.step WorkerProcess.UnhandledRejection
          (WorkerProcess.start true)) = Some 1%Z
  /\ WorkerProcess.step (WorkerProcess.Message "health-check")
       (WorkerProcess.start true)
     = {| WorkerProcess.connected := true; WorkerProcess.reports := 1;
          WorkerProcess.exitCode := None |}.
Proof.
  split; [reflexivity|]. split; [reflexivity|].
  exact (@worker_control_messages (WorkerProcess.start true)
           eq_refl eq_refl).
Defined.

Lemma shutdownGracefully_waits_witness :
  exitCode (boot 3) = None
  /\ waits (boot 3) = []
  /\ no_signal [Disconnect (gone 1); Exit (gone 1); TimerFired;
                Disconnect (gone 3); Interval; Disconnect (gone 2)] = true
  /\ let '(s1, log) := run_handler shutdownGracefully (boot 3) in
     log = [Send 1 "shutdown"%string; Send 2 "shutdown"%string;
            Send 3 "shutdown"%string]
     /\ exitCode
          (fst (run [Disconnect (gone 1); Exit (gone 1); TimerFired;
                     Disconnect (gone 3); Interval; Disconnect (gone 2)]
                    s1)) = Some 0%Z.
Proof.
  split; [reflexivity|]. split; [reflexivity|]. split; [reflexivity|].
  exact (@shutdownGracefully_waits (boot 3)
           [Disconnect (gone 1); Exit (gone 1); TimerFired;
            Disconnect (gone 3); Interval; Disconnect (gone 2)]
           eq_refl eq_refl eq_refl).
Defined.

(** C2 as stated fails: with a [shutdownGracefully] call waiting for
    workers 1 and 2, worker 1 exits and, worker 2 being slow, the
    replacement timer fires: worker 3 is forked while the master is still
    suspended in the shutdown. *)
Lemma replacement_forked_mid_shutdown :
  exitCode draining = None
  /\ waits draining = [[1; 2]]
  /\ run [Disconnect (gone 1); Exit (gone 1); TimerFired] draining
     = ({| numCPUs := 2;
           workers := [(2, newWorker 2); (3, newWorker 3)];
           isMaster := true; ids := 3; timers := 0; waits := [[2]];
           exitCode := None |},
        [SetTimeout 1000; Fork 3]).
Proof. repeat split. Qed.

Lemma exit_schedules_replacement_witness :
  exitCode draining = None
  /\ snd (run [Exit (gone 1); TimerFired] draining)
     = [SetTimeout 1000; Fork 3]
  /\ (forall i, ~ In (Fork i) (snd (shutdownGracefully draining)))
  /\ (forall c e, step e (set_exitCode (Some c) draining)
                  = (set_exitCode (Some c) draining, [])).
Proof.
  split; [reflexivity|].
  exact (@exit_schedules_replacement draining (gone 1) eq_refl).
Defined.

Lemma scale_down_is_undone_witness :
  exitCode (boot 4) = None
  /\ isMaster (boot 4) = true
  /\ fresh (boot 4)
  /\ keyed (workers (boot 4))
  /\ 2 < JsMap.size (workers (boot 4))
  /\ step (ScaleWorkers 2) (boot 4)
     = (boot 4, [Kill 1 "SIGTERM"%string; Kill 2 "SIGTERM"%string])
  /\ JsMap.size
       (workers (fst (run [Exit (gone 1); Exit (gone 2)] (boot 4)))) + 2
     = 4
  /\ snd (run [Exit (gone 1); Exit (gone 2); TimerFired; TimerFired]
              (boot 4))
     = [SetTimeout 1000; SetTimeout 1000; Fork 5; Fork 6]
  /\ JsMap.size
       (workers
          (fst (run [Exit (gone 1); Exit (gone 2); TimerFired; TimerFired]
                    (boot 4))))
     = 4.
Proof.
  assert (Hf : fresh (boot 4)) by (repeat constructor).
  assert (Hk : keyed (workers (boot 4))).
  { split; repeat constructor; cbn; intuition discriminate. }
  assert (Hlt : 2 < JsMap.size (workers (boot 4))) by (vm_compute; lia).
  split; [reflexivity|]. split; [reflexivity|]. split; [exact Hf|].
  split; [exact Hk|]. split; [exact Hlt|].
  exact (@scale_down_is_undone 2 (boot 4) eq_refl eq_refl Hf Hk Hlt).
Defined.

Lemma startup_ignores_CLUSTER_WORKERS_witness :
  startup {| ProcessEnv.NODE_ENV := Some "production"%string;
             ProcessEnv.ENABLE_CLUSTER := None;
             ProcessEnv.CLUSTER_WORKERS := Some 2 |} 4 true
  = AsMaster {| Env.NODE_ENV := "production";
                Env.ENABLE_CLUSTER := true;
                Env.CLUSTER_WORKERS := 2 |}
             (boot 4) [Fork 1; Fork 2; Fork 3; Fork 4]
  /\ Env.CLUSTER_WORKERS {| Env.NODE_ENV := "production";
                            Env.ENABLE_CLUSTER := true;
                            Env.CLUSTER_WORKERS := 2 |} = 2
  /\ numCPUs (boot 4) = 4
  /\ [Fork 1; Fork 2; Fork 3; Fork 4] = map Fork (seq 1 4)
  /\ JsMap.size (workers (boot 4)) = 4.
Proof.
  split; [reflexivity|].
  exact (@startup_ignores_CLUSTER_WORKERS
           {| ProcessEnv.NODE_ENV := Some "production"%string;
              ProcessEnv.ENABLE_CLUSTER := None;
              ProcessEnv.CLUSTER_WORKERS := Some 2 |} 4
           {| Env.NODE_ENV := "production";
              Env.ENABLE_CLUSTER := true;
              Env.CLUSTER_WORKERS := 2 |}
           (boot 4) [Fork 1; Fork 2; Fork 3; Fork 4] eq_refl).
Defined.

(** * Further properties of the supervisor *)

(** ** Forking and starting *)

(** X1.  On a registry whose ids all come from the cluster counter,
    [forkWorker] appends exactly one entry, for a connected worker under
    an id no registered worker has, and keeps the invariant. *)
Theorem forkWorker_registers (s : Master) :
  fresh s ->
  forkWorker s
  = (Normal (newWorker (S (ids s))),
     set_ids (S (ids s))
       (set_workers
          (workers s ++ [(S (ids s), newWorker (S (ids s)))]) s),
     [Fork (S (ids s))])
  /\ ~ In (S (ids s)) (JsMap.keys (workers s))
  /\ fresh (snd (fst (forkWorker s))).
Proof.
  intros Hf.
  assert (Hnew : ~ In (S (ids s)) (JsMap.keys (workers s))).
  { intros Hin. unfold fresh in Hf. rewrite Forall_forall in Hf.
    apply Hf in Hin. lia. }
  split; [|split].
  - rewrite forkWorker_eq. unfold fork_state.
    cbn [workers ids set_ids set_workers].
    now rewrite set_absent by exact Hnew.
  - exact Hnew.
  - rewrite forkWorker_eq. cbn [fst snd]. now apply fresh_fork_state.
Qed.

(** X2.  [startMaster] in the master forks one worker per core, with ids
    1 to [cpus] in this order, all registered. *)
Theorem startMaster_forks (cpus : nat) :
  startMaster (LoadBalancer cpus true)
  = (Normal tt, forked cpus (LoadBalancer cpus true),
     map Fork (seq 1 cpus))
  /\ JsMap.keys (workers (forked cpus (LoadBalancer cpus true)))
     = seq 1 cpus
  /\ JsMap.size (workers (forked cpus (LoadBalancer cpus true))) = cpus.
Proof.
  split; [|split].
  - unfold startMaster. step_bind. cbn [negb isMaster LoadBalancer gets].
    step_bind. rewrite times_forkWorker.
    now rewrite fork_n_fresh by apply fresh_boot_state.
  - unfold forked, spawned, JsMap.keys. cbn.
    rewrite map_map. cbn. apply map_id.
  - rewrite size_forked. reflexivity.
Qed.

(** X3.  In a worker process ([isMaster] false) [startMaster],
    [monitorWorkers], [scaleWorkers] and [restartWorkers] return at once
    without any effect and [getStats] has no result. *)
Theorem methods_inert_in_worker (s : Master) (count : nat) :
  isMaster s = false ->
  startMaster s = (Normal tt, s, [])
  /\ monitorWorkers s = (Normal tt, s, [])
  /\ scaleWorkers count s = (Normal tt, s, [])
  /\ restartWorkers s = (Normal tt, s, [])
  /\ getStats s = None.
Proof.
  intros Hm. repeat split.
  - unfold startMaster. step_bind. unfold gets. now rewrite Hm.
  - now apply monitorWorkers_worker.
  - apply scaleWorkers_same. now left.
  - rewrite restartWorkers_eq. now rewrite Hm.
  - unfold getStats. now rewrite Hm.
Qed.

(** X4.  [shutdownGracefully] has no master guard and no wait when
    nobody is connected: with no connected worker in the registry (an
    empty registry included) it sends nothing and ends the process with
    code 0 in the call itself. *)
Theorem shutdownGracefully_nobody (s : Master) :
  filter isConnected (JsMap.values (workers s)) = [] ->
  shutdownGracefully s
  = (Halt, set_exitCode (Some 0%Z) s, [ProcessExit 0]).
Proof.
  intros H. rewrite shutdownGracefully_eq.
  unfold awaited, shutdown_messages. now rewrite H.
Qed.

(** ** Lifecycle events *)

Lemma set_present (k : nat) (v : Worker) (m : JsMap.t Worker) :
  NoDup (JsMap.keys m) -> In (k, v) m -> JsMap.set k v m = m.
Proof.
  unfold JsMap.keys.
  induction m as [|[k' v'] m IH]; cbn; intros Hnd Hin; [contradiction|].
  inversion Hnd as [|? ? Hk' Hnd']; subst.
  destruct (Nat.eqb_spec k' k) as [->|Hne].
  - destruct Hin as [[= ->]|Hin]; [reflexivity|].
    exfalso. apply Hk'. now apply (in_map fst) in Hin.
  - destruct Hin as [[= -> _]|Hin]; [contradiction|].
    now rewrite IH.
Qed.

Lemma delete_idem (k : nat) (m : JsMap.t Worker) :
  JsMap.delete k (JsMap.delete k m) = JsMap.delete k m.
Proof.
  unfold JsMap.delete. induction m as [|[k' v] m IH]; [reflexivity|].
  cbn. destruct (k' =? k) eqn:E; cbn; [exact IH|].
  rewrite E. cbn. now rewrite IH.
Qed.

Lemma workers_step_Disconnect (w : Worker) (s : Master) :
  exitCode s = None ->
  workers (fst (step (Disconnect w) s)) = JsMap.delete (id w) (workers s).
Proof.
  intros Hrun.
  unfold step, handlers, run_handlers, run_handler. rewrite Hrun.
  unfold resolve, on_disconnect, workers_delete, modify.
  cbn [exitCode set_waits set_workers]. rewrite Hrun.
  unfold resume, bind, gets. cbn [exitCode set_waits set_workers waits].
  rewrite Hrun.
  destruct (existsb settled _); reflexivity.
Qed.

Lemma step_Exit (w : Worker) (s : Master) :
  exitCode s = None ->
  step (Exit w) s
  = (set_timers (S (timers s))
       (set_workers (JsMap.delete (id w) (workers s)) s),
     [SetTimeout 1000]).
Proof.
  intros Hrun.
  unfold step, handlers, run_handlers, run_handler. now rewrite Hrun.
Qed.

(** X5.  The [online] event of a worker that is registered (the same
    object its fork inserted) changes nothing: the re-insert keeps the
    entry where it is. *)
Theorem online_idempotent (w : Worker) (s : Master) :
  keyed (workers s) ->
  In (id w, w) (workers s) ->
  step (Online w) s = (s, []).
Proof.
  intros [_ Hnd] Hin.
  unfold step, handlers, run_handlers, run_handler.
  destruct (exitCode s) eqn:Hrun; [reflexivity|].
  cbn. rewrite set_present by assumption.
  destruct s; reflexivity.
Qed.

(** X6.  The registry entry of a worker is removed by whichever of
    [disconnect] and [exit] arrives first, and the other one removes
    nothing more: in both orders the registry ends as the old one without
    that worker's entry. *)
Theorem removal_once (w : Worker) (s : Master) :
  exitCode s = None ->
  workers (fst (run [Disconnect w; Exit w] s))
  = JsMap.delete (id w) (workers s)
  /\ workers (fst (run [Exit w; Disconnect w] s))
     = JsMap.delete (id w) (workers s).
Proof.
  intros Hrun. split.
  - cbn [run].
    pose proof (@workers_step_Disconnect w s Hrun) as Hw.
    destruct (step (Disconnect w) s) as [s1 l1]. cbn [fst] in Hw.
    destruct (exitCode s1) as [c|] eqn:Hx.
    + rewrite (step_exited (Exit w) s1 Hx). exact Hw.
    + rewrite step_Exit by exact Hx. cbn. now rewrite Hw, delete_idem.
  - cbn [run]. rewrite step_Exit by exact Hrun.
    match goal with
    | |- context [step (Disconnect w) ?s1] =>
        pose proof (@workers_step_Disconnect w s1 Hrun) as Hw;
        destruct (step (Disconnect w) s1) as [s2 l2]
    end.
    cbn [fst] in *. rewrite Hw. cbn. apply delete_idem.
Qed.

Lemma step_TimerFired (t : nat) (s : Master) :
  exitCode s = None ->
  timers s = S t ->
  step TimerFired s
  = (fork_state (set_timers t s), [Fork (S (ids s))]).
Proof.
  intros Hrun Ht.
  unfold step, handlers, run_handlers, run_handler. rewrite Hrun.
  unfold on_timeout. step_bind. unfold gets. rewrite Ht. reflexivity.
Qed.

Lemma step_Interval (s : Master) :
  exitCode s = None ->
  isMaster s = true ->
  step Interval s
  = (fork_n (numCPUs s - JsMap.size (workers s)) s,
     map Fork (seq (S (ids s)) (numCPUs s - JsMap.size (workers s)))
     ++ health_checks
          (workers (fork_n (numCPUs s - JsMap.size (workers s)) s))).
Proof.
  intros Hrun Hm.
  unfold step, handlers, run_handlers, run_handler. rewrite Hrun.
  rewrite (monitorWorkers_eq s Hm). now rewrite app_nil_r.
Qed.

Lemma size_delete_present (k : nat) (m : JsMap.t Worker) :
  NoDup (JsMap.keys m) -> In k (JsMap.keys m) ->
  S (JsMap.size (JsMap.delete k m)) = JsMap.size m.
Proof.
  intros Hnd Hin. unfold JsMap.size.
  rewrite <- (length_map fst (JsMap.delete k m)).
  fold (JsMap.keys (JsMap.delete k m)). rewrite keys_delete_eq.
  rewrite (@length_remove_key k _ Hnd Hin).
  unfold JsMap.keys. now rewrite length_map.
Qed.

Lemma fresh_after_exit (k t : nat) (s : Master) :
  fresh s ->
  fresh (set_timers t (set_workers (JsMap.delete k (workers s)) s)).
Proof. intros Hf. unfold fresh; cbn. now apply keys_delete. Qed.

(** ** Crash replacement and auto-heal *)

(** X7.  When a registered worker exits and its replacement timer
    fires, the registry is the old one without that worker plus one new
    entry at the end: the size is restored and the replacement carries an
    id that was never used, so not the crashed worker's. *)
Theorem crash_replacement (w : Worker) (s : Master) :
  exitCode s = None ->
  fresh s ->
  keyed (workers s) ->
  In (id w) (JsMap.keys (workers s)) ->
  workers (fst (run [Exit w; TimerFired] s))
  = JsMap.delete (id w) (workers s)
    ++ [(S (ids s), newWorker (S (ids s)))]
  /\ JsMap.size (workers (fst (run [Exit w; TimerFired] s)))
     = JsMap.size (workers s)
  /\ S (ids s) <> id w
  /\ timers (fst (run [Exit w; TimerFired] s)) = timers s.
Proof.
  intros Hrun Hf [_ Hnd] Hin.
  assert (Hle : id w <= ids s).
  { unfold fresh in Hf. rewrite Forall_forall in Hf. now apply Hf. }
  cbn [run]. rewrite step_Exit by exact Hrun.
  erewrite step_TimerFired by first [exact Hrun | reflexivity].
  cbn [fst].
  rewrite fork_state_fresh
    by (apply (@fresh_after_exit (id w) (timers s) s Hf)).
  cbn [workers forked set_ids set_workers set_timers ids timers spawned
       seq map].
  split; [reflexivity|]. split; [|split; [lia|reflexivity]].
  unfold JsMap.size. rewrite length_app. cbn [length].
  rewrite Nat.add_1_r. now apply (@size_delete_present (id w)).
Qed.

(** X8.  The two repair paths add up.  On a full pool, when a worker
    exits and a health-check tick comes before the replacement timer,
    the tick forks the shortfall and the timer then forks again: the
    registry ends one above the target, with two new ids. *)
Theorem double_provisioning (w : Worker) (s : Master) :
  exitCode s = None ->
  isMaster s = true ->
  fresh s ->
  keyed (workers s) ->
  JsMap.size (workers s) = numCPUs s ->
  In (id w) (JsMap.keys (workers s)) ->
  workers (fst (run [Exit w; Interval; TimerFired] s))
  = JsMap.delete (id w) (workers s)
    ++ [(S (ids s), newWorker (S (ids s)));
        (S (S (ids s)), newWorker (S (S (ids s))))]
  /\ JsMap.size (workers (fst (run [Exit w; Interval; TimerFired] s)))
     = S (numCPUs s).
Proof.
  intros Hrun Hm Hf [_ Hnd] Hfull Hin.
  pose proof (@size_delete_present (id w) _ Hnd Hin) as Hsz.
  assert (E : workers (fst (run [Exit w; Interval; TimerFired] s))
    = JsMap.delete (id w) (workers s)
      ++ [(S (ids s), newWorker (S (ids s)));
          (S (S (ids s)), newWorker (S (S (ids s))))]).
  { cbn [run]. rewrite step_Exit by exact Hrun.
    rewrite step_Interval by (cbn; assumption).
    cbn [numCPUs workers set_timers set_workers].
    replace (numCPUs s - JsMap.size (JsMap.delete (id w) (workers s)))
      with 1 by lia.
    rewrite fork_n_fresh
      by (apply (@fresh_after_exit (id w) (S (timers s)) s Hf)).
    erewrite step_TimerFired by first [exact Hrun | reflexivity].
    cbn [fst].
    rewrite fork_state_fresh.
    - cbn. rewrite <- app_assoc, Nat.add_1_r. reflexivity.
    - unfold fresh. cbn. unfold JsMap.keys. rewrite map_app.
      apply Forall_app. split.
      + fold (JsMap.keys (JsMap.delete (id w) (workers s))).
        apply keys_delete. eapply Forall_impl; [|exact Hf]. cbn; lia.
      + repeat constructor. cbn. lia. }
  split; [exact E|].
  rewrite E. unfold JsMap.size in *. rewrite length_app. cbn [length].
  lia.
Qed.

(** ** Restart *)

Lemma delete_all_filter (ks : list nat) : forall (m : JsMap.t Worker),
  fold_left (fun r k => JsMap.delete k r) ks m
  = filter (fun e => negb (mem (fst e) ks)) m.
Proof.
  induction ks as [|k ks IH]; intros m; cbn [fold_left].
  - induction m as [|e m IHm]; [reflexivity|]. cbn. now f_equal.
  - rewrite IH. unfold JsMap.delete.
    induction m as [|e m IHm]; [reflexivity|]. cbn [filter].
    unfold mem at 2. cbn [existsb]. fold (mem (fst e) ks).
    destruct (fst e =? k); cbn; [exact IHm|].
    destruct (mem (fst e) ks); cbn; [exact IHm|]. now rewrite IHm.
Qed.

Lemma delete_all_keys (m : JsMap.t Worker) :
  fold_left (fun r k => JsMap.delete k r) (JsMap.keys m) m = [].
Proof.
  rewrite delete_all_filter.
  assert (H : forall e, In e m -> mem (fst e) (JsMap.keys m) = true).
  { intros e He. unfold mem. apply existsb_exists. exists (fst e).
    split; [now apply in_map|apply Nat.eqb_refl]. }
  revert H. generalize (JsMap.keys m) as ks. intros ks H.
  induction m as [|e m IH]; [reflexivity|]. cbn.
  rewrite (H e) by now left. cbn. apply IH.
  intros e' He'. apply H. now right.
Qed.

Lemma filter_all (A : Type) (p : A -> bool) (l : list A) :
  forallb p l = true -> filter p l = l.
Proof.
  induction l as [|a l IH]; [reflexivity|]. cbn.
  destruct (p a); [|discriminate]. cbn. intros H. now rewrite IH.
Qed.

(** X9.  [restartWorkers] on a pool whose workers are all connected
    sends SIGTERM to every one of them and leaves the registry alone;
    once all of them have exited and their replacement timers have
    fired, the registry holds as many workers as before and every one is
    new, under an id above all the old ones. *)
Theorem restartWorkers_rolls (s : Master) :
  exitCode s = None ->
  isMaster s = true ->
  fresh s ->
  keyed (workers s) ->
  forallb isConnected (JsMap.values (workers s)) = true ->
  let pool := JsMap.values (workers s) in
  let n := JsMap.size (workers s) in
  step RestartWorkers s
  = (s, map (fun w => Kill (id w) "SIGTERM"%string) pool)
  /\ workers (fst (run (exits pool ++ repeat TimerFired n) s))
     = spawned (ids s) n
  /\ JsMap.keys (workers (fst (run (exits pool ++ repeat TimerFired n) s)))
     = seq (S (ids s)) n.
Proof.
  intros Hrun Hm Hf [Hkey _] Hall pool n.
  assert (Hlen : length pool = n).
  { unfold pool, n, JsMap.values, JsMap.size. apply length_map. }
  assert (E : workers (fst (run (exits pool ++ repeat TimerFired n) s))
              = spawned (ids s) n).
  { rewrite run_app, (run_exits pool s Hrun).
    rewrite run_timers by (cbn; try assumption; lia).
    cbn [fst]. rewrite fork_n_fresh.
    - cbn [workers forked set_ids set_workers set_timers ids].
      unfold pool. rewrite <- (keys_keyed Hkey), delete_all_keys.
      reflexivity.
    - unfold fresh. cbn [workers ids set_timers set_workers].
      now apply keys_delete_all. }
  split; [|split].
  - unfold step, handlers, run_handlers, run_handler. rewrite Hrun.
    rewrite restartWorkers_eq, Hm. unfold terminations.
    now rewrite (filter_all _ _ Hall), app_nil_r.
  - exact E.
  - rewrite E. unfold spawned, JsMap.keys. rewrite map_map. cbn.
    apply map_id.
Qed.

(** ** Signals *)

(** X10.  A termination signal runs both installed handlers, so
    [shutdownGracefully] is called twice: while some worker is connected
    each connected worker is sent "shutdown" twice and two waits on the
    same workers are registered; with nobody connected the first call
    ends the process with code 0 and the second never runs. *)
Theorem signal_calls_shutdown_twice (s : Master) :
  exitCode s = None ->
  step Signal s
  = if settled (awaited (workers s))
    then (set_exitCode (Some 0%Z) s, [ProcessExit 0])
    else (set_waits
            (waits s ++ [awaited (workers s); awaited (workers s)]) s,
          shutdown_messages (workers s) ++ shutdown_messages (workers s)).
Proof.
  intros Hrun.
  unfold step, handlers, run_handlers, run_handler. rewrite Hrun.
  rewrite shutdownGracefully_eq.
  destruct (awaited (workers s)) as [|i l] eqn:E.
  - cbn. unfold awaited in E. apply map_eq_nil in E.
    unfold shutdown_messages. rewrite E. reflexivity.
  - cbn [length Nat.ltb Nat.leb settled exitCode set_waits].
    rewrite Hrun, shutdownGracefully_eq. cbn [workers set_waits].
    rewrite E. cbn [length Nat.ltb Nat.leb].
    unfold set_waits; cbn. now rewrite <- !app_assoc, app_nil_r.
Qed.

(** ** What the event loop maintains *)

Lemma keyed_run (evs : list Event) : forall s,
  keyed (workers s) -> keyed (workers (fst (run evs s))).
Proof.
  induction evs as [|e evs IH]; intros s H; [exact H|].
  cbn [run]. pose proof (keyed_step e s H) as H1.
  destruct (step e s) as [s1 l1]. cbn [fst] in H1.
  specialize (IH s1 H1). now destruct (run evs s1).
Qed.

(** X11.  Whatever events arrive, as long as the runtime announces only
    workers it has forked, the registry keeps one entry per id, each
    filed under the id of its worker, and never holds an id the cluster
    counter has not reached. *)
Theorem registry_invariant (evs : list Event) (s : Master) :
  fresh s ->
  keyed (workers s) ->
  events_ok evs s ->
  fresh (fst (run evs s)) /\ keyed (workers (fst (run evs s))).
Proof.
  intros Hf Hk Hok. split.
  - now apply fresh_run.
  - now apply keyed_run.
Qed.

Lemma step_exit_code (e : Event) (s : Master) :
  exitCode s = None ->
  exitCode (fst (step e s)) = None
  \/ exitCode (fst (step e s)) = Some 0%Z.
Proof.
  intros Hrun.
  destruct e as [w|w|w| | | |count|];
    try (match goal with
         | |- context [step ?e s] =>
             destruct (@step_steady e s Hrun I) as [Hx _]
         end; left; exact Hx).
  - unfold step, handlers, run_handlers, run_handler. rewrite Hrun.
    unfold resolve, on_disconnect, workers_delete, modify.
    cbn [exitCode set_waits set_workers]. rewrite Hrun.
    unfold resume, bind, gets. cbn [exitCode set_waits set_workers waits].
    rewrite Hrun.
    destruct (existsb settled _); cbn; auto.
  - unfold step, handlers, run_handlers, run_handler. rewrite Hrun.
    rewrite shutdownGracefully_eq.
    destruct (0 <? length (awaited (workers s))) eqn:E.
    + cbn [exitCode set_waits]. rewrite Hrun, shutdownGracefully_eq.
      cbn [workers set_waits]. rewrite E. cbn. auto.
    + cbn. auto.
Qed.

(** X12.  No listener of the master lets an exception escape: from a
    live master, whatever events arrive, the process is either still
    running or has exited with code 0, never with a failure code. *)
Theorem master_never_fails (evs : list Event) : forall s,
  exitCode s = None ->
  exitCode (fst (run evs s)) = None
  \/ exitCode (fst (run evs s)) = Some 0%Z.
Proof.
  induction evs as [|e evs IH]; intros s Hrun; [now left|].
  cbn [run]. pose proof (@step_exit_code e s Hrun) as H1.
  destruct (step e s) as [s1 l1]. cbn [fst] in H1.
  destruct H1 as [H1|H1].
  - specialize (IH s1 H1). now destruct (run evs s1).
  - rewrite (run_exited evs s1 H1). now right.
Qed.

(** * Further properties of the worker process *)


(** X13.  A worker ignores every message other than "shutdown" and
    "health-check": its state is left exactly as it was. *)
Theorem worker_ignores_other_messages (msg : string)
  (p : WorkerProcess.t) :
  msg <> "shutdown"%string ->
  msg <> "health-check"%string ->
  WorkerProcess.step (WorkerProcess.Message msg) p = p.
Proof.
  intros H1 H2. unfold WorkerProcess.step, WorkerProcess.on_message.
  apply String.eqb_neq in H1, H2. rewrite H1, H2.
  destruct (WorkerProcess.exitCode p); [reflexivity|].
  now destruct (WorkerProcess.connected p).
Qed.


(** * Further properties of the configuration and the startup *)

Lemma valid_NODE_ENV_cases (v : string) :
  valid_NODE_ENV v = true ->
  v = "development"%string \/ v = "production"%string \/ v = "test"%string.
Proof.
  unfold valid_NODE_ENV. intros H.
  apply orb_prop in H as [H|H]; [apply orb_prop in H as [H|H]|];
    apply String.eqb_eq in H; auto.
Qed.

(** What decides clustering once [validateEnv] has passed. *)
Lemma validateEnv_ENABLE_CLUSTER (penv : ProcessEnv.t) (cpus : nat)
  (env : Env.t) :
  validateEnv penv cpus = Some env ->
  Env.ENABLE_CLUSTER env
  = (isProduction penv
     || (isTest penv
         && match ProcessEnv.ENABLE_CLUSTER penv with
            | Some b => b
            | None => true
            end)).
Proof.
  unfold validateEnv, isProduction, isTest.
  destruct (ProcessEnv.NODE_ENV penv) as [v|].
  - destruct (valid_NODE_ENV v) eqn:Hv; cbn [negb]; [|discriminate].
    apply valid_NODE_ENV_cases in Hv as [->|[->| ->]];
      destruct (ProcessEnv.CLUSTER_WORKERS penv) as [n|];
      try destruct ((1 <=? n) && (n <=? 16));
      try discriminate; intros [= <-]; reflexivity.
  - change (negb (valid_NODE_ENV "development")) with false. cbv iota.
    destruct (ProcessEnv.CLUSTER_WORKERS penv) as [n|];
      try destruct ((1 <=? n) && (n <=? 16));
      try discriminate; intros [= <-]; reflexivity.
Qed.


(** X16.  Which branch the startup script takes.  A process that is not
    the cluster master always becomes a worker.  The cluster master
    becomes the supervisor in production, whatever [ENABLE_CLUSTER]
    says, and in test unless [ENABLE_CLUSTER] is false; in development,
    or with [NODE_ENV] unset, it serves as a single worker even when
    [ENABLE_CLUSTER] is true. *)
Theorem startup_role (penv : ProcessEnv.t) (cpus : nat) (env : Env.t) :
  validateEnv penv cpus = Some env ->
  startup penv cpus false = AsWorker env
  /\ startup penv cpus true
     = if isProduction penv
          || (isTest penv
              && match ProcessEnv.ENABLE_CLUSTER penv with
                 | Some b => b
                 | None => true
                 end)
       then AsMaster env (boot cpus) (map Fork (seq 1 cpus))
       else AsWorker env.
Proof.
  intros Hv. unfold startup. rewrite Hv. split; [reflexivity|].
  cbn [andb]. rewrite (validateEnv_ENABLE_CLUSTER _ _ Hv).
  destruct (isProduction penv || _); [|reflexivity].
  now rewrite startMaster_run.
Qed.

(** X17.  Under the startup script the cluster switch of [server.js]
    never fires: whenever the script takes its worker branch and loads
    the server module, that module's own test for forking workers is
    false, so the process serves requests. *)
Theorem server_never_forks_under_startup (penv : ProcessEnv.t)
  (cpus : nat) (clusterIsMaster : bool) (env : Env.t) :
  startup penv cpus clusterIsMaster = AsWorker env ->
  server_forks clusterIsMaster penv = false.
Proof.
  unfold startup, server_forks.
  destruct (validateEnv penv cpus) as [env'|] eqn:Hv; [|discriminate].
  destruct clusterIsMaster; [|reflexivity]. cbn [andb].
  rewrite (validateEnv_ENABLE_CLUSTER _ _ Hv).
  destruct (isProduction penv); cbn [orb]; [|reflexivity].
  destruct (run_handler startMaster _). discriminate.
Qed.

(** X18.  The environment predicates read the raw variable while
    [validateEnv] fills in a default: they agree with the validated
    [NODE_ENV] when the variable is set, but with [NODE_ENV] unset the
    validated environment is "development" and [isDevelopment()] is
    false. *)
Theorem predicates_read_raw_env (penv : ProcessEnv.t) (cpus : nat)
  (env : Env.t) :
  validateEnv penv cpus = Some env ->
  isProduction penv = String.eqb (Env.NODE_ENV env) "production"
  /\ isTest penv = String.eqb (Env.NODE_ENV env) "test"
  /\ isDevelopment penv
     = match ProcessEnv.NODE_ENV penv with
       | Some _ => String.eqb (Env.NODE_ENV env) "development"
       | None => false
       end
  /\ match ProcessEnv.NODE_ENV penv with
     | Some v => Env.NODE_ENV env = v
     | None => Env.NODE_ENV env = "development"%string
     end.
Proof.
  unfold validateEnv, isProduction, isTest, isDevelopment.
  destruct (ProcessEnv.NODE_ENV penv) as [v|].
  - destruct (negb (valid_NODE_ENV v)); [discriminate|].
    destruct (ProcessEnv.CLUSTER_WORKERS penv) as [n|];
      try destruct ((1 <=? n) && (n <=? 16));
      try discriminate; intros [= <-]; cbn; repeat split.
  - change (negb (valid_NODE_ENV "development")) with false. cbv iota.
    destruct (ProcessEnv.CLUSTER_WORKERS penv) as [n|];
      try destruct ((1 <=? n) && (n <=? 16));
      try discriminate; intros [= <-]; cbn; repeat split.
Qed.

(** * The metrics collector *)

Lemma collect_all_memory (rs : list Metrics.Reading) :
  forall m : Metrics.t,
  length (Metrics.memory m) <= 100 ->
  Metrics.memory (Metrics.collect_all rs m)
  = skipn (length (Metrics.memory m ++ rs) - 100) (Metrics.memory m ++ rs)
  /\ Metrics.requests (Metrics.collect_all rs m) = Metrics.requests m
  /\ Metrics.errors (Metrics.collect_all rs m) = Metrics.errors m
  /\ Metrics.startTime (Metrics.collect_all rs m) = Metrics.startTime m.
Proof.
  induction rs as [|r rs IH]; intros m Hm.
  - cbn. rewrite app_nil_r.
    replace (length (Metrics.memory m) - 100) with 0 by lia.
    repeat split.
  - cbn [Metrics.collect_all fold_left].
    fold (Metrics.collect_all rs (Metrics.collect r m)).
    set (pushed := Metrics.memory m ++ [r]).
    assert (Hp : length pushed = S (length (Metrics.memory m))).
    { unfold pushed. rewrite length_app. cbn. lia. }
    assert (Hmem : Metrics.memory (Metrics.collect r m)
                   = skipn (length pushed - 100) pushed).
    { unfold Metrics.collect. cbn [Metrics.memory]. fold pushed.
      destruct (Nat.ltb_spec 100 (length pushed)).
      - replace (length pushed - 100) with 1 by lia.
        now destruct pushed.
      - replace (length pushed - 100) with 0 by lia. reflexivity. }
    assert (Hlen : length (Metrics.memory (Metrics.collect r m)) <= 100).
    { rewrite Hmem, length_skipn. lia. }
    destruct (IH _ Hlen) as (E & E1 & E2 & E3).
    rewrite E, E1, E2, E3. split; [|repeat split].
    rewrite Hmem.
    replace (Metrics.memory m ++ r :: rs) with (pushed ++ rs)
      by (unfold pushed; now rewrite <- app_assoc).
    assert (Hsk : skipn (length pushed - 100) pushed ++ rs
                  = skipn (length pushed - 100) (pushed ++ rs)).
    { rewrite skipn_app.
      replace (length pushed - 100 - length pushed) with 0 by lia.
      reflexivity. }
    rewrite Hsk, skipn_skipn, length_skipn, !length_app.
    f_equal. lia.
Qed.

(** X19.  The metrics collector keeps a sliding window: after any
    number of collection ticks [metrics.memory] holds the most recent
    readings in order, at most 100 of them, and the [requests] and
    [errors] counters are still 0, since no code ever updates them. *)
Theorem metrics_window (now : nat) (rs : list Metrics.Reading) :
  Metrics.memory (Metrics.collect_all rs (Metrics.init now))
  = skipn (length rs - 100) rs
  /\ length (Metrics.memory (Metrics.collect_all rs (Metrics.init now)))
     = Nat.min (length rs) 100
  /\ Metrics.requests (Metrics.collect_all rs (Metrics.init now)) = 0
  /\ Metrics.errors (Metrics.collect_all rs (Metrics.init now)) = 0.
Proof.
  destruct (@collect_all_memory rs (Metrics.init now)) as (E & E1 & E2 & _).
  { cbn. lia. }
  cbn [Metrics.memory Metrics.init app] in E.
  rewrite E, E1, E2. split; [reflexivity|]. split; [|split; reflexivity].
  rewrite length_skipn. lia.
Qed.

(** * Instances of the further properties *)

Lemma keyed_boot_4 : keyed (workers (boot 4)).
Proof. split; repeat constructor; cbn; intuition discriminate. Qed.

Lemma fresh_boot_4 : fresh (boot 4).
Proof. repeat constructor. Qed.

Lemma forkWorker_registers_witness :
  fresh (boot 4)
  /\ forkWorker (boot 4)
     = (Normal (newWorker 5),
        set_ids 5 (set_workers (workers (boot 4) ++ [(5, newWorker 5)])
                               (boot 4)),
        [Fork 5])
  /\ ~ In 5 (JsMap.keys (workers (boot 4)))
  /\ fresh (snd (fst (forkWorker (boot 4)))).
Proof.
  split; [exact fresh_boot_4|].
  exact (@forkWorker_registers (boot 4) fresh_boot_4).
Defined.

Lemma methods_inert_in_worker_witness :
  isMaster (LoadBalancer 4 false) = false
  /\ startMaster (LoadBalancer 4 false)
     = (Normal tt, LoadBalancer 4 false, [])
  /\ monitorWorkers (LoadBalancer 4 false)
     = (Normal tt, LoadBalancer 4 false, [])
  /\ scaleWorkers 3 (LoadBalancer 4 false)
     = (Normal tt, LoadBalancer 4 false, [])
  /\ restartWorkers (LoadBalancer 4 false)
     = (Normal tt, LoadBalancer 4 false, [])
  /\ getStats (LoadBalancer 4 false) = None.
Proof.
  split; [reflexivity|].
  exact (@methods_inert_in_worker (LoadBalancer 4 false) 3 eq_refl).
Defined.

Lemma shutdownGracefully_nobody_witness :
  filter isConnected (JsMap.values (workers short_pool_gone)) = []
  /\ shutdownGracefully short_pool_gone
     = (Halt, set_exitCode (Some 0%Z) short_pool_gone, [ProcessExit 0]).
Proof.
  split; [reflexivity|].
  exact (@shutdownGracefully_nobody short_pool_gone eq_refl).
Defined.

Lemma online_idempotent_witness :
  keyed (workers (boot 4))
  /\ In (id (newWorker 2), newWorker 2) (workers (boot 4))
  /\ step (Online (newWorker 2)) (boot 4) = (boot 4, []).
Proof.
  assert (Hin : In (id (newWorker 2), newWorker 2) (workers (boot 4))).
  { right. left. reflexivity. }
  split; [exact keyed_boot_4|]. split; [exact Hin|].
  exact (@online_idempotent (newWorker 2) (boot 4) keyed_boot_4 Hin).
Defined.

Lemma removal_once_witness :
  exitCode (boot 4) = None
  /\ workers (fst (run [Disconnect (gone 2); Exit (gone 2)] (boot 4)))
     = JsMap.delete 2 (workers (boot 4))
  /\ workers (fst (run [Exit (gone 2); Disconnect (gone 2)] (boot 4)))
     = JsMap.delete 2 (workers (boot 4)).
Proof.
  split; [reflexivity|].
  exact (@removal_once (gone 2) (boot 4) eq_refl).
Defined.

Lemma crash_replacement_witness :
  exitCode (boot 4) = None
  /\ fresh (boot 4)
  /\ keyed (workers (boot 4))
  /\ In 2 (JsMap.keys (workers (boot 4)))
  /\ workers (fst (run [Exit (gone 2); TimerFired] (boot 4)))
     = JsMap.delete 2 (workers (boot 4)) ++ [(5, newWorker 5)]
  /\ JsMap.size (workers (fst (run [Exit (gone 2); TimerFired] (boot 4))))
     = 4
  /\ 5 <> 2
  /\ timers (fst (run [Exit (gone 2); TimerFired] (boot 4))) = 0.
Proof.
  assert (Hin : In (id (gone 2)) (JsMap.keys (workers (boot 4)))).
  { right. left. reflexivity. }
  split; [reflexivity|]. split; [exact fresh_boot_4|].
  split; [exact keyed_boot_4|]. split; [exact Hin|].
  exact (@crash_replacement (gone 2) (boot 4) eq_refl fresh_boot_4
           keyed_boot_4 Hin).
Defined.

Lemma double_provisioning_witness :
  exitCode (boot 4) = None
  /\ isMaster (boot 4) = true
  /\ fresh (boot 4)
  /\ keyed (workers (boot 4))
  /\ JsMap.size (workers (boot 4)) = numCPUs (boot 4)
  /\ In 2 (JsMap.keys (workers (boot 4)))
  /\ workers (fst (run [Exit (gone 2); Interval; TimerFired] (boot 4)))
     = JsMap.delete 2 (workers (boot 4))
       ++ [(5, newWorker 5); (6, newWorker 6)]
  /\ JsMap.size
       (workers (fst (run [Exit (gone 2); Interval; TimerFired] (boot 4))))
     = 5.
Proof.
  assert (Hin : In (id (gone 2)) (JsMap.keys (workers (boot 4)))).
  { right. left. reflexivity. }
  split; [reflexivity|]. split; [reflexivity|].
  split; [exact fresh_boot_4|]. split; [exact keyed_boot_4|].
  split; [reflexivity|]. split; [exact Hin|].
  exact (@double_provisioning (gone 2) (boot 4) eq_refl eq_refl
           fresh_boot_4 keyed_boot_4 eq_refl Hin).
Defined.

Lemma restartWorkers_rolls_witness :
  exitCode (boot 4) = None
  /\ isMaster (boot 4) = true
  /\ fresh (boot 4)
  /\ keyed (workers (boot 4))
  /\ forallb isConnected (JsMap.values (workers (boot 4))) = true
  /\ step RestartWorkers (boot 4)
     = (boot 4,
        [Kill 1 "SIGTERM"%string; Kill 2 "SIGTERM"%string;
         Kill 3 "SIGTERM"%string; Kill 4 "SIGTERM"%string])
  /\ workers
       (fst (run (exits (JsMap.values (workers (boot 4)))
                  ++ repeat TimerFired 4) (boot 4)))
     = spawned 4 4
  /\ JsMap.keys
       (workers
          (fst (run (exits (JsMap.values (workers (boot 4)))
                     ++ repeat TimerFired 4) (boot 4))))
     = [5; 6; 7; 8].
Proof.
  split; [reflexivity|]. split; [reflexivity|].
  split; [exact fresh_boot_4|]. split; [exact keyed_boot_4|].
  split; [reflexivity|].
  exact (@restartWorkers_rolls (boot 4) eq_refl eq_refl fresh_boot_4
           keyed_boot_4 eq_refl).
Defined.

Lemma signal_calls_shutdown_twice_witness :
  exitCode (boot 2) = None
  /\ step Signal (boot 2)
     = (set_waits [[1; 2]; [1; 2]] (boot 2),
        [Send 1 "shutdown"%string; Send 2 "shutdown"%string;
         Send 1 "shutdown"%string; Send 2 "shutdown"%string]).
Proof.
  split; [reflexivity|].
  exact (@signal_calls_shutdown_twice (boot 2) eq_refl).
Defined.

Lemma registry_invariant_witness :
  fresh (boot 4)
  /\ keyed (workers (boot 4))
  /\ events_ok [Online (newWorker 3); Exit (gone 1); Interval; TimerFired;
                ScaleWorkers 2; Disconnect (gone 3)] (boot 4)
  /\ fresh (fst (run [Online (newWorker 3); Exit (gone 1); Interval;
                      TimerFired; ScaleWorkers 2; Disconnect (gone 3)]
                     (boot 4)))
  /\ keyed (workers
              (fst (run [Online (newWorker 3); Exit (gone 1); Interval;
                         TimerFired; ScaleWorkers 2; Disconnect (gone 3)]
                        (boot 4)))).
Proof.
  assert (Hok : events_ok [Online (newWorker 3); Exit (gone 1); Interval;
                           TimerFired; ScaleWorkers 2; Disconnect (gone 3)]
                          (boot 4)).
  { cbn. repeat split. lia. }
  split; [exact fresh_boot_4|]. split; [exact keyed_boot_4|].
  split; [exact Hok|].
  exact (@registry_invariant _ (boot 4) fresh_boot_4 keyed_boot_4 Hok).
Defined.

Lemma master_never_fails_witness :
  exitCode (boot 2) = None
  /\ (exitCode (fst (run [Signal; Exit (gone 1); Disconnect (gone 1);
                          TimerFired; Disconnect (gone 2)] (boot 2)))
      = None
      \/ exitCode (fst (run [Signal; Exit (gone 1); Disconnect (gone 1);
                             TimerFired; Disconnect (gone 2)] (boot 2)))
         = Some 0%Z).
Proof.
  split; [reflexivity|].
  exact (@master_never_fails
           [Signal; Exit (gone 1); Disconnect (gone 1); TimerFired;
            Disconnect (gone 2)] (boot 2) eq_refl).
Defined.

Lemma worker_ignores_other_messages_witness :
  "ping"%string <> "shutdown"%string
  /\ "ping"%string <> "health-check"%string
  /\ WorkerProcess.step (WorkerProcess.Message "ping")
       (WorkerProcess.start true)
     = WorkerProcess.start true.
Proof.
  assert (H1 : "ping"%string <> "shutdown"%string) by discriminate.
  assert (H2 : "ping"%string <> "health-check"%string) by discriminate.
  split; [exact H1|]. split; [exact H2|].
  exact (@worker_ignores_other_messages "ping" (WorkerProcess.start true)
           H1 H2).
Defined.


Lemma startup_role_witness :
  validateEnv development_clustered 8
  = Some {| Env.NODE_ENV := "development"; Env.ENABLE_CLUSTER := false;
            Env.CLUSTER_WORKERS := 8 |}
  /\ startup development_clustered 8 false
     = AsWorker {| Env.NODE_ENV := "development";
                   Env.ENABLE_CLUSTER := false;
                   Env.CLUSTER_WORKERS := 8 |}
  /\ startup development_clustered 8 true
     = AsWorker {| Env.NODE_ENV := "development";
                   Env.ENABLE_CLUSTER := false;
                   Env.CLUSTER_WORKERS := 8 |}.
Proof.
  split; [reflexivity|].
  exact (@startup_role development_clustered 8 _ eq_refl).
Defined.

Lemma server_never_forks_under_startup_witness :
  startup development_clustered 8 true
  = AsWorker {| Env.NODE_ENV := "development"; Env.ENABLE_CLUSTER := false;
                Env.CLUSTER_WORKERS := 8 |}
  /\ server_forks true development_clustered = false.
Proof.
  split; [reflexivity|].
  exact (@server_never_forks_under_startup development_clustered 8 true _
           eq_refl).
Defined.

Lemma predicates_read_raw_env_witness :
  validateEnv unset_env 8
  = Some {| Env.NODE_ENV := "development"; Env.ENABLE_CLUSTER := false;
            Env.CLUSTER_WORKERS := 8 |}
  /\ isProduction unset_env = false
  /\ isTest unset_env = false
  /\ isDevelopment unset_env = false
  /\ Env.NODE_ENV {| Env.NODE_ENV := "development";
                     Env.ENABLE_CLUSTER := false;
                     Env.CLUSTER_WORKERS := 8 |} = "development"%string.
Proof.
  split; [reflexivity|].
  exact (@predicates_read_raw_env unset_env 8 _ eq_refl).
Defined.
